(** * Verification of the statement segmentation and category aggregation
      of expense-categorizer.

    Sources: [src/transaction_extractor.py] (class [TransactionExtractor])
    and the per-category summation loop of [src/app.py]
    ([analyze_statement]) and [src/main.py] ([main]).

    Python [str] values are modelled as lists of 8-bit characters
    ([list ascii], read as Latin-1 code points).  Python exceptions are
    modelled by an error result carrying the exception and its message. *)

From Stdlib Require Import Ascii String ZArith.
From stdpp Require Import base list gmap strings.

Abbreviation str := (list ascii).

(** A Python string literal, as a character list. *)
Definition lit (s : string) : str := list_ascii_of_string s.

(** ** Python exceptions and results *)

Inductive exn : Type :=
| ValueError (msg : string).

Inductive result (A : Type) : Type :=
| Ok (a : A)
| Err (e : exn).
Arguments Ok {A} a.
Arguments Err {A} e.

(** ** The [str] methods the code uses *)

(** [is_prefix n l]: [l] starts with [n]. *)
Fixpoint is_prefix (n l : str) : bool :=
  match n, l with
  | [], _ => true
  | c :: n', d :: l' => Ascii.eqb c d && is_prefix n' l'
  | _ :: _, [] => false
  end.

(** Lowest index [>= k] (counting [l] as starting at [k]) at which [n]
    occurs in [l]. *)
Fixpoint find_from (n l : str) (k : nat) : option nat :=
  if is_prefix n l then Some k
  else match l with
       | [] => None
       | _ :: l' => find_from n l' (S k)
       end.

(** [hay.find(sub)]: the lowest index of [sub] in [hay], or [-1]. *)
Definition str_find (sub hay : str) : Z :=
  match find_from sub hay 0 with
  | Some i => Z.of_nat i
  | None => (-1)%Z
  end.

(** [s[i:]] *)
Definition slice_from (s : str) (i : Z) : str :=
  if (i <? 0)%Z then drop (Z.to_nat (Z.of_nat (length s) + i)) s
  else drop (Z.to_nat i) s.

(** [s[:j]] *)
Definition slice_to (s : str) (j : Z) : str :=
  if (j <? 0)%Z then take (Z.to_nat (Z.of_nat (length s) + j)) s
  else take (Z.to_nat j) s.

(** [c.isspace()] for code points 0..255: [\t \n \x0b \x0c \r], the
    separators [\x1c .. \x1f], the space, [\x85] and [\xa0]. *)
Definition py_isspace (c : ascii) : bool :=
  let n := nat_of_ascii c in
  ((9 <=? n) && (n <=? 13)) || ((28 <=? n) && (n <=? 32))
  || (n =? 133) || (n =? 160).

Fixpoint lstrip (s : str) : str :=
  match s with
  | [] => []
  | c :: s' => if py_isspace c then lstrip s' else s
  end.

Definition rstrip (s : str) : str := rev (lstrip (rev s)).

(** [s.strip()] *)
Definition str_strip (s : str) : str := rstrip (lstrip s).

(** ** The extractor object and its methods *)

(** The attributes of a [TransactionExtractor] instance. *)
Record TransactionExtractor : Type := {
  start_marker : str;
  stop_marker : str;
  formatted_start_marker : str
}.

(** Methods run in a state-and-exception monad over [self]. *)
Definition M (A : Type) : Type :=
  TransactionExtractor -> TransactionExtractor * result A.

Definition ret {A} (a : A) : M A := fun self => (self, Ok a).
Definition raise {A} (e : exn) : M A := fun self => (self, Err e).
Definition get_self : M TransactionExtractor := fun self => (self, Ok self).
Definition put_self (x : TransactionExtractor) : M unit :=
  fun _ => (x, Ok tt).
Definition bind {A B} (m : M A) (k : A -> M B) : M B :=
  fun self =>
    match m self with
    | (self', Ok a) => k a self'
    | (self', Err e) => (self', Err e)
    end.

Notation "'let!' x := m 'in' k" := (bind m (fun x => k))
  (at level 200, x name, m at level 100, k at level 200).

(** The loop body of [_format_start_marker]. *)
Definition format_step (formatted_marker : str) (char : ascii) : str :=
  if negb (Ascii.eqb char " "%char) then formatted_marker ++ [char; char]
  else formatted_marker ++ [char].

(** The [for char in self.start_marker] loop. *)
Definition format_loop (start : str) : str := fold_left format_step start [].

(** [_format_start_marker] *)
Definition format_start_marker : M unit :=
  let! self := get_self in
  put_self {| start_marker := start_marker self;
              stop_marker := stop_marker self;
              formatted_start_marker := format_loop (start_marker self) |}.

(** [__init__]: the two attributes are set, then [_format_start_marker]
    adds the third (it is empty before that call). *)
Definition init (start stop : str) : TransactionExtractor :=
  fst (format_start_marker
         {| start_marker := start; stop_marker := stop;
            formatted_start_marker := [] |}).

Definition default_extractor : TransactionExtractor :=
  init (lit "ACCOUNT ACTIVITY") (lit "Totals Year-to-Date").

(** [extract_transactions] *)
Definition extract_transactions (text : str) : M str :=
  let! self := get_self in
  let title_pos := str_find (formatted_start_marker self) text in
  if (title_pos =? -1)%Z
  then raise (ValueError "Could not find start marker in text")
  else
    let text_after_start := slice_from text title_pos in
    let stop_pos := str_find (stop_marker self) text_after_start in
    if (stop_pos =? -1)%Z
    then raise (ValueError "Could not find stop marker in text")
    else
      let extracted_text := str_strip (slice_to text_after_start stop_pos) in
      ret extracted_text.

(** [extract_purchases] (the commented-out line parser is not code). *)
Definition extract_purchases (text : str) : M str :=
  let! all_transactions := extract_transactions text in
  let title_pos := str_find (lit "PURCHASE") all_transactions in
  if (title_pos =? -1)%Z
  then raise (ValueError "Could not find PURCHASE in text")
  else
    let all_purchases_text := slice_from all_transactions title_pos in
    ret all_purchases_text.

(** The value (or exception) a method call returns. *)
Definition call {A} (m : M A) (self : TransactionExtractor) : result A :=
  snd (m self).

(** ** The spec's reading of the marker encoding *)

(** The encoding as the spec words it: every non-space character [c]
    becomes [c c], a space stays a single space. *)
Definition encode (s : str) : str :=
  flat_map (fun c => if Ascii.eqb c " "%char then [c] else [c; c]) s.

(** ** Category aggregation ([analyze_statement] in app.py, [main] in
    main.py) *)

(** One entry of [result['transactions']], as the loop reads it. *)
Record TransactionRecord (A : Type) : Type := {
  category : string;
  amount : A
}.
Arguments category {A} _.
Arguments amount {A} _.

Section Aggregate.
(** The amount type and its [+]; Python starts from the integer [0]
    given to [dict.get]. *)
Context {A : Type} (add : A -> A -> A) (zero : A).

(** [spend_by_category[category] = spend_by_category.get(category, 0) + amount] *)
Definition spend_step (spend_by_category : gmap string A)
    (purchase : TransactionRecord A) : gmap string A :=
  <[category purchase :=
      add (default zero (spend_by_category !! category purchase))
          (amount purchase)]> spend_by_category.

(** The loop [for purchase in result['transactions']] from [{}]. *)
Definition spend_by_category (purchases : list (TransactionRecord A))
    : gmap string A :=
  fold_left spend_step purchases ∅.
End Aggregate.

(** Amounts in cents: the spec's example records. *)
Definition food1 : TransactionRecord Z := {| category := "Food"; amount := 1050%Z |}.
Definition food2 : TransactionRecord Z := {| category := "Food"; amount := 525%Z |}.
Definition shop1 : TransactionRecord Z := {| category := "Shopping"; amount := 2000%Z |}.

(** ** Occurrences of a substring *)

(** [n] occurs in [t] at index [j]. *)
Definition occurs_at (n t : str) (j : nat) : bool := is_prefix n (drop j t).

(** [i] is the first index at which [n] occurs in [t]. *)
Definition first_occ (n t : str) (i : nat) : Prop :=
  occurs_at n t i = true /\ forall j, j < i -> occurs_at n t j = false.

(** ** More [str] methods: [lower], [endswith], [rfind], [Path.name],
    [Path.suffix] *)

(** [c.lower()] for code points 0..255: [A..Z] and [À..Þ] except [×]. *)
Definition lower_char (c : ascii) : ascii :=
  let n := nat_of_ascii c in
  if ((65 <=? n) && (n <=? 90)) || ((192 <=? n) && (n <=? 222) && negb (n =? 215))
  then ascii_of_nat (n + 32) else c.

(** [s.lower()] *)
Definition str_lower (s : str) : str := map lower_char s.

(** [s.endswith(suf)] *)
Definition ends_with (s suf : str) : bool := is_prefix (rev suf) (rev s).

(** Index of the last [c] in [s]. *)
Fixpoint last_index (c : ascii) (s : str) : option nat :=
  match s with
  | [] => None
  | d :: s' =>
      match last_index c s' with
      | Some i => Some (S i)
      | None => if Ascii.eqb d c then Some 0 else None
      end
  end.

(** [s.rfind(c)] for a one-character [c]. *)
Definition rfind_char (c : ascii) (s : str) : Z :=
  match last_index c s with Some i => Z.of_nat i | None => (-1)%Z end.

(** The part of a path after its last ["/"]. *)
Fixpoint after_last_slash (rev_path : str) : str :=
  match rev_path with
  | [] => []
  | c :: r => if Ascii.eqb c "/"%char then [] else c :: after_last_slash r
  end.

(** [PurePath.name] of a normalised path. *)
Definition path_name (p : str) : str := rev (after_last_slash (rev p)).

(** [PurePath.suffix]:
    [i = name.rfind('.'); return name[i:] if 0 < i < len(name) - 1 else ''] *)
Definition path_suffix (p : str) : str :=
  let name := path_name p in
  let i := rfind_char "."%char name in
  if (0 <? i)%Z && (i <? Z.of_nat (length name) - 1)%Z
  then slice_from name i else [].

(** ** Exceptions, pages and the log of main.py and app.py *)

Inductive exc_kind : Type :=
| KValueError | KFileNotFoundError | KKeyError | KTypeError
| KExternal  (** raised inside pdfplumber or the OpenAI client *).

(** An exception, with its type and [str(e)]. *)
Record app_exn : Type := AppExn {
  exc_type : exc_kind;
  exc_str : str
}.

Definition of_exn (e : exn) : app_exn :=
  match e with ValueError m => AppExn KValueError (lit m) end.

Inductive outcome (A : Type) : Type :=
| Done (a : A)
| Thrown (e : app_exn).
Arguments Done {A} a.
Arguments Thrown {A} e.

(** What [page.extract_text()] does on one page: return a string, return
    [None], or raise. *)
Inductive page : Type :=
| PageText (t : str)
| PageNone
| PageRaises (e : app_exn).

(** One entry per logger call of the modelled functions, with the values
    its message interpolates. *)
Inductive log_entry : Type :=
| LogReading (pdf_path : str)                (** info "Reading PDF from: ..." *)
| LogNoTextOnPage (page_num : nat)           (** warning "No text extracted from page ..." *)
| LogPageError (page_num : nat) (msg : str)  (** error "Error processing page ...: ..." *)
| LogNoText                                  (** error "No text was extracted from the PDF" *)
| LogExtracted                               (** info "Successfully extracted text from PDF" *)
| LogReadError (msg : str)                   (** error "Error reading PDF: ..." *)
| LogSending                                 (** info "Sending text to OpenAI API for analysis" *)
| LogReceived                                (** info "Successfully received response ..." *)
| LogApiError (msg : str)                    (** error "Error calling OpenAI API: ..." *)
| LogProcessingError (msg : str)             (** app.py: error "Error processing PDF: ..." *)
| LogFailedToProcess (msg : str).            (** main.py: error "Failed to process PDF: ..." *)

(** [str(e)] of the [TypeError] of [None + "\n"]. *)
Definition none_plus_str_msg : str :=
  lit "unsupported operand type(s) for +: 'NoneType' and 'str'".

(** The part of the outside world the two entry points touch: the files
    that exist (by resolved path), the texts sent to the OpenAI API, and
    the log. *)
Record World : Type := {
  files : gset str;
  api_calls : list str;
  logs : list log_entry
}.

(** Code of main.py and app.py: state over the world, with exceptions. *)
Definition IO (A : Type) : Type := World -> World * outcome A.

Definition io_ret {A} (a : A) : IO A := fun w => (w, Done a).
Definition io_throw {A} (e : app_exn) : IO A := fun w => (w, Thrown e).
Definition io_bind {A B} (m : IO A) (k : A -> IO B) : IO B :=
  fun w =>
    match m w with
    | (w', Done a) => k a w'
    | (w', Thrown e) => (w', Thrown e)
    end.
Definition io_world : IO World := fun w => (w, Done w).
Definition io_log (l : log_entry) : IO unit :=
  fun w => ({| files := files w; api_calls := api_calls w;
               logs := logs w ++ [l] |}, Done tt).
Definition io_lift {A} (o : outcome A) : IO A := fun w => (w, o).

(** [try: m except Exception as e: h(e)] *)
Definition io_try_except {A} (m : IO A) (h : app_exn -> IO A) : IO A :=
  fun w =>
    match m w with
    | (w', Done a) => (w', Done a)
    | (w', Thrown e) => h e w'
    end.

(** [try: m finally: f] *)
Definition io_try_finally {A} (m : IO A) (f : IO unit) : IO A :=
  fun w =>
    let '(w', o) := m w in
    match f w' with
    | (w'', Done _) => (w'', o)
    | (w'', Thrown e) => (w'', Thrown e)
    end.

Notation "'let?' x := m 'in' k" := (io_bind m (fun x => k))
  (at level 200, x name, m at level 100, k at level 200).
Notation "m ;; k" := (io_bind m (fun _ => k)) (at level 100, right associativity).

(** A method of the extractor, called from main.py or app.py. *)
Definition io_extractor {A} (m : M A) (self : TransactionExtractor) : IO A :=
  io_lift (match call m self with Ok a => Done a | Err e => Thrown (of_exn e) end).

(** ** [read_pdf] (identical in main.py and app.py) *)

Section ReadPdf.
(** [pdfplumber.open(path).pages], with each page's [extract_text()]. *)
Variable pdf_open : str -> outcome (list page).

(** The body of [for page_num, page in enumerate(pdf.pages, 1)]. *)
Definition read_page (text : str) (page_num : nat) (p : page) : IO str :=
  match p with
  | PageText page_text =>
      (if bool_decide (page_text = []) then io_log (LogNoTextOnPage page_num)
       else io_ret tt) ;;
      io_ret (text ++ page_text ++ ["010"%char])
  | PageNone =>
      (* [not None] logs the warning, then [None + "\n"] raises a TypeError
         that the [except] logs and skips *)
      io_log (LogNoTextOnPage page_num) ;;
      io_log (LogPageError page_num none_plus_str_msg) ;;
      io_ret text
  | PageRaises e =>
      io_log (LogPageError page_num (exc_str e)) ;;
      io_ret text
  end.

Fixpoint read_pages (text : str) (page_num : nat) (pages : list page) : IO str :=
  match pages with
  | [] => io_ret text
  | p :: ps => let? text' := read_page text page_num p in
               read_pages text' (S page_num) ps
  end.

(** [read_pdf(file_path)]; the path is taken as already resolved. *)
Definition read_pdf (pdf_path : str) : IO str :=
  io_try_except
    (let? w := io_world in
     if bool_decide (pdf_path ∉ files w)
     then io_throw (AppExn KFileNotFoundError (lit "PDF file not found at: " ++ pdf_path))
     else if negb (bool_decide (str_lower (path_suffix pdf_path) = lit ".pdf"))
     then io_throw (AppExn KValueError (lit "File must be a PDF. Got: " ++ path_suffix pdf_path))
     else
       io_log (LogReading pdf_path) ;;
       let? pages := io_lift (pdf_open pdf_path) in
       let? text := read_pages [] 1 pages in
       if bool_decide (str_strip text = [])
       then io_log LogNoText ;;
            io_throw (AppExn KValueError (lit "Failed to extract any text from the PDF"))
       else io_log LogExtracted ;; io_ret text)
    (fun e => io_log (LogReadError (exc_str e)) ;; io_throw e).
End ReadPdf.

(** ** [analyze_with_openai], the [/analyze-statement] endpoint and
    [main] *)

Section Pipeline.
Context {A : Type} (add : A -> A -> A) (zero : A).
Variable pdf_open : str -> outcome (list page).
(** [os.getenv('OPENAI_API_KEY')] *)
Variable api_key : option str.
(** The chat-completion call and [json.loads] of its answer, given the
    statement text put into the prompt: the value of the answer's
    ['transactions'] key, [None] when the key is absent. *)
Variable openai : str -> outcome (option (list (TransactionRecord A))).

(** [analyze_with_openai(text)] *)
Definition analyze_with_openai (text : str)
    : IO (option (list (TransactionRecord A))) :=
  if match api_key with None => true | Some k => bool_decide (k = []) end
  then io_throw (AppExn KValueError (lit "OPENAI_API_KEY environment variable is not set"))
  else
    io_try_except
      (io_log LogSending ;;
       (fun w => ({| files := files w; api_calls := api_calls w ++ [text];
                     logs := logs w |}, Done tt)) ;;
       let? result := io_lift (openai text) in
       io_log LogReceived ;;
       io_ret result)
      (fun e => io_log (LogApiError (exc_str e)) ;; io_throw e).

(** [result['transactions']] *)
Definition get_transactions (result : option (list (TransactionRecord A)))
    : IO (list (TransactionRecord A)) :=
  match result with
  | Some l => io_ret l
  | None => io_throw (AppExn KKeyError (lit "'transactions'"))
  end.

(** What [analyze_statement] answers. *)
Inductive response : Type :=
| JSONResponse (transactions : list (TransactionRecord A))
               (spend_by_category : gmap string A)
| HTTPException (status_code : Z) (detail : str).

(** [NamedTemporaryFile(delete=False, suffix='.pdf')] and its write. *)
Definition create_temp (temp_path : str) : IO unit :=
  fun w => ({| files := {[temp_path]} ∪ files w; api_calls := api_calls w;
               logs := logs w |}, Done tt).

(** [temp_path.unlink()] *)
Definition unlink (p : str) : IO unit :=
  fun w =>
    if bool_decide (p ∈ files w)
    then ({| files := files w ∖ {[p]}; api_calls := api_calls w;
             logs := logs w |}, Done tt)
    else (w, Thrown (AppExn KFileNotFoundError (lit "No such file or directory"))).

(** The inner [try] block of [analyze_statement], from [read_pdf] to the
    [JSONResponse]. *)
Definition process_statement (temp_path : str) : IO response :=
  let? text := read_pdf pdf_open temp_path in
  let? purchases := io_extractor (extract_purchases text) default_extractor in
  let? result := analyze_with_openai purchases in
  let? transactions := get_transactions result in
  io_ret (JSONResponse transactions (spend_by_category add zero transactions)).

(** [analyze_statement(file)]: [filename] is [file.filename];
    [temp_path] is the fresh path the temporary file gets. *)
Definition analyze_statement (filename temp_path : str) : IO response :=
  if negb (ends_with (str_lower filename) (lit ".pdf"))
  then io_ret (HTTPException 400 (lit "File must be a PDF"))
  else
    io_try_except
      (create_temp temp_path ;;
       io_try_finally (process_statement temp_path) (unlink temp_path))
      (fun e => io_log (LogProcessingError (exc_str e)) ;;
                io_ret (HTTPException 500 (exc_str e))).

(** How [main] ends when it does not raise. *)
Inductive main_result : Type :=
| SysExit (code : Z) (printed : list str)
| PrintedTotals (spend_by_category : gmap string A).

Definition usage : str := lit "Usage: python main.py <path_to_pdf>".

(** [main()] with [sys.argv]; an exception it does not catch is [Thrown]. *)
Definition main (argv : list str) : IO main_result :=
  if negb (bool_decide (length argv = 2))
  then io_ret (SysExit 1 [usage])
  else
    let pdf_path := default [] (argv !! 1) in
    let transaction_extractor :=
      init (lit "ACCOUNT ACTIVITY") (lit "Totals Year-to-Date") in
    let? purchases :=
      io_try_except
        (let? text := read_pdf pdf_open pdf_path in
         let? purchases := io_extractor (extract_purchases text) transaction_extractor in
         io_ret (Some purchases))
        (fun e => io_log (LogFailedToProcess (exc_str e)) ;; io_ret None) in
    match purchases with
    | None => io_ret (SysExit 1 [])
    | Some purchases =>
        let? result := analyze_with_openai purchases in
        let? transactions := get_transactions result in
        io_ret (PrintedTotals (spend_by_category add zero transactions))
    end.
End Pipeline.

(** ** Characterising helpers for the proofs about main.py and app.py *)

(** What one page adds to [read_pdf]'s text. *)
Definition page_out (p : page) : str :=
  match p with PageText t => t ++ ["010"%char] | _ => [] end.

(** What one page adds to the log. *)
Definition page_logs (page_num : nat) (p : page) : list log_entry :=
  match p with
  | PageText t => if bool_decide (t = []) then [LogNoTextOnPage page_num] else []
  | PageNone => [LogNoTextOnPage page_num; LogPageError page_num none_plus_str_msg]
  | PageRaises e => [LogPageError page_num (exc_str e)]
  end.

Fixpoint pages_logs (page_num : nat) (pages : list page) : list log_entry :=
  match pages with
  | [] => []
  | p :: ps => page_logs page_num p ++ pages_logs (S page_num) ps
  end.

(** The world [w] with entries [l] appended to its log. *)
Definition with_logs (w : World) (l : list log_entry) : World :=
  {| files := files w; api_calls := api_calls w; logs := logs w ++ l |}.

(** [m] leaves the set of files as it is. *)
Definition keeps_files {A} (m : IO A) : Prop :=
  forall w, files (fst (m w)) = files w.

(** [m] changes nothing but the log, which it only extends. *)
Definition log_only {A} (m : IO A) : Prop :=
  forall w, exists l, fst (m w) = with_logs w l.

(** A sample run: a one-page statement with one purchase, an API answer
    with two transactions, and a world without files. *)
Definition sample_text : str :=
  lit "Statement AACCCCOOUUNNTT AACCTTIIVVIITTYY PURCHASE Coffee 5.00 Totals Year-to-Date".

Definition sample_pdf_open (p : str) : outcome (list page) :=
  Done [PageText sample_text].

Definition sample_openai (text : str) : outcome (option (list (TransactionRecord Z))) :=
  Done (Some [food1; shop1]).

Definition sample_world : World := {| files := ∅; api_calls := []; logs := [] |}.

Definition sample_pdf_path : str := lit "/home/u/statement.pdf".

Definition sample_home : World :=
  {| files := {[sample_pdf_path]}; api_calls := []; logs := [] |}.

(** * Lemmas *)

Example default_format :
  formatted_start_marker default_extractor = lit "AACCCCOOUUNNTT AACCTTIIVVIITTYY".
Proof. reflexivity. Qed.

Example spend_example :
  spend_by_category Z.add 0%Z [food1; food2; shop1] =
  <["Shopping" := 2000%Z]> (<["Food" := 1575%Z]> ∅).
Proof. reflexivity. Qed.

Example extract_small :
  call (extract_purchases (lit "x AABB zz PURCHASE q PURCHASE r  STOP y"))
       (init (lit "AB") (lit "STOP")) = Ok (lit "PURCHASE q PURCHASE r").
Proof. reflexivity. Qed.

Lemma is_prefix_spec (n l : str) :
  is_prefix n l = true <-> exists r, l = n ++ r.
Proof.
  revert l; induction n as [|c n IH]; intros l; simpl.
  - split; [intros _; by exists l | done].
  - destruct l as [|d l].
    + split; [done|]. intros [r Hr]; discriminate.
    + rewrite andb_true_iff, Ascii.eqb_eq, IH. split.
      * intros [-> [r ->]]. by exists r.
      * intros [r Hr]. injection Hr as -> ->. split; [done|]. by exists r.
Qed.

Lemma occurs_at_app (n t : str) (j : nat) :
  occurs_at n t j = true <-> exists r, drop j t = n ++ r.
Proof. apply is_prefix_spec. Qed.

Lemma occurs_at_cons (n : str) (c : ascii) (t : str) (j : nat) :
  occurs_at n (c :: t) (S j) = occurs_at n t j.
Proof. reflexivity. Qed.

Lemma occurs_at_drop (n t : str) (i j : nat) :
  occurs_at n (drop i t) j = occurs_at n t (i + j).
Proof. unfold occurs_at. by rewrite drop_drop. Qed.

Lemma find_from_some (n t : str) (k i : nat) :
  find_from n t k = Some i ->
  k <= i /\ occurs_at n t (i - k) = true /\
  (forall j, j < i - k -> occurs_at n t j = false).
Proof.
  revert k; induction t as [|c t IH]; intros k; simpl.
  - destruct (is_prefix n []) eqn:E; [|done].
    intros [= <-]. rewrite Nat.sub_diag. split; [lia|]. split; [done|lia].
  - destruct (is_prefix n (c :: t)) eqn:E.
    + intros [= <-]. rewrite Nat.sub_diag. split; [lia|]. split; [done|lia].
    + intros Hf. destruct (IH (S k) Hf) as (Hle & Hocc & Hbefore).
      replace (i - k) with (S (i - S k)) by lia.
      split; [lia|]. split; [done|].
      intros [|j] Hj; [done|]. rewrite occurs_at_cons. apply Hbefore. lia.
Qed.

Lemma find_from_none (n t : str) (k : nat) :
  find_from n t k = None -> forall j, occurs_at n t j = false.
Proof.
  revert k; induction t as [|c t IH]; intros k; simpl.
  - destruct (is_prefix n []) eqn:E; [done|]. intros _ j.
    unfold occurs_at. by rewrite drop_nil.
  - destruct (is_prefix n (c :: t)) eqn:E; [done|].
    intros Hf [|j]; [done|]. rewrite occurs_at_cons. by eapply IH.
Qed.

Lemma str_find_first_occ (n t : str) (i : nat) :
  first_occ n t i -> str_find n t = Z.of_nat i.
Proof.
  intros [Hocc Hbefore]. unfold str_find.
  destruct (find_from n t 0) as [i'|] eqn:Hf.
  - apply find_from_some in Hf as (_ & Hocc' & Hbefore').
    rewrite Nat.sub_0_r in Hocc', Hbefore'.
    f_equal. destruct (Nat.lt_total i i') as [Hlt|[Heq|Hgt]].
    + rewrite Hbefore' in Hocc by done. done.
    + done.
    + rewrite Hbefore in Hocc' by done. done.
  - by rewrite (find_from_none _ _ _ Hf i) in Hocc.
Qed.

Lemma str_find_not_found (n t : str) :
  (forall j, occurs_at n t j = false) -> str_find n t = (-1)%Z.
Proof.
  intros Hno. unfold str_find.
  destruct (find_from n t 0) as [i|] eqn:Hf; [|done].
  apply find_from_some in Hf as (_ & Hocc & _). by rewrite Hno in Hocc.
Qed.

Lemma str_find_m1 (n t : str) :
  str_find n t = (-1)%Z -> forall j, occurs_at n t j = false.
Proof.
  unfold str_find. destruct (find_from n t 0) as [i|] eqn:Hf.
  - lia.
  - intros _. by eapply find_from_none.
Qed.

Lemma str_find_found (n t : str) :
  str_find n t <> (-1)%Z ->
  exists i, str_find n t = Z.of_nat i /\ first_occ n t i.
Proof.
  unfold str_find. destruct (find_from n t 0) as [i|] eqn:Hf; [|done].
  intros _. exists i. split; [done|].
  apply find_from_some in Hf as (_ & Hocc & Hbefore).
  rewrite Nat.sub_0_r in Hocc, Hbefore. by split.
Qed.

Lemma slice_from_nat (s : str) (i : nat) :
  slice_from s (Z.of_nat i) = drop i s.
Proof.
  unfold slice_from. destruct (Z.ltb_spec (Z.of_nat i) 0); [lia|].
  by rewrite Nat2Z.id.
Qed.

Lemma slice_to_nat (s : str) (i : nat) :
  slice_to s (Z.of_nat i) = take i s.
Proof.
  unfold slice_to. destruct (Z.ltb_spec (Z.of_nat i) 0); [lia|].
  by rewrite Nat2Z.id.
Qed.

Lemma of_nat_neq_m1 (i : nat) : (Z.of_nat i =? -1)%Z = false.
Proof. apply Z.eqb_neq. lia. Qed.

Lemma lstrip_suffix (s : str) : exists u, s = u ++ lstrip s.
Proof.
  induction s as [|c s [u Hu]]; simpl; [by exists []|].
  destruct (py_isspace c).
  - exists (c :: u). simpl. by f_equal.
  - by exists [].
Qed.

Lemma str_strip_infix (s : str) : exists u w, s = u ++ str_strip s ++ w.
Proof.
  destruct (lstrip_suffix s) as [u Hu].
  destruct (lstrip_suffix (rev (lstrip s))) as [w Hw].
  exists u, (rev w). unfold str_strip, rstrip.
  rewrite <- rev_app_distr, <- Hw, rev_involutive. done.
Qed.

Lemma first_occ_app (n l r : str) (i : nat) :
  first_occ n l i -> i + length n <= length l -> first_occ n (l ++ r) i.
Proof.
  intros [Hocc Hbefore] Hlen. split.
  - apply occurs_at_app in Hocc as [r' Hr']. apply occurs_at_app.
    exists (r' ++ r). rewrite drop_app_le by lia. rewrite Hr'.
    by rewrite (assoc_L (++)).
  - intros j Hj. destruct (occurs_at n (l ++ r) j) eqn:E; [|done].
    exfalso. apply occurs_at_app in E as [r' Hr'].
    rewrite drop_app_le in Hr' by lia.
    pose proof (f_equal (take (length n)) Hr') as Hn.
    rewrite take_app_length in Hn.
    rewrite take_app_le in Hn by (rewrite length_drop; lia).
    enough (Hx : occurs_at n l j = true) by (rewrite Hbefore in Hx; done).
    apply occurs_at_app. exists (drop (length n) (drop j l)).
    by rewrite <- Hn at 1; rewrite take_drop.
Qed.

Lemma first_occ_shift (n t : str) (i k : nat) :
  occurs_at n t (i + k) = true ->
  (forall j, i <= j < i + k -> occurs_at n t j = false) ->
  first_occ n (drop i t) k.
Proof.
  intros Hocc Hbefore. split.
  - by rewrite occurs_at_drop.
  - intros j Hj. rewrite occurs_at_drop. apply Hbefore. lia.
Qed.

(** A substring ending at or before the first occurrence of a non-empty
    [n] does not contain [n]. *)
Lemma no_occ_before_first (n s : str) (k : nat) (a b : str) :
  n <> [] -> first_occ n s k -> take k s = a ++ n ++ b -> False.
Proof.
  intros Hn [_ Hbefore] Htake.
  assert (Hlen : length a + length n <= k).
  { pose proof (length_take s k) as Hl. rewrite Htake in Hl.
    rewrite !length_app in Hl. lia. }
  assert (occurs_at n s (length a) = true) as Hocc.
  { apply occurs_at_app. exists (b ++ drop k s).
    rewrite <- (take_drop k s) at 1. rewrite Htake.
    rewrite <- !(assoc_L (++)). by rewrite drop_app_length. }
  rewrite Hbefore in Hocc; [done|].
  destruct n; [done|]. simpl in Hlen. lia.
Qed.

(** The methods never write [self]. *)
Lemma extract_transactions_state (x : TransactionExtractor) (text : str) :
  extract_transactions text x = (x, call (extract_transactions text) x).
Proof.
  unfold call, extract_transactions, bind, get_self, ret, raise. cbn.
  by repeat case_match.
Qed.

Lemma extract_purchases_unfold (x : TransactionExtractor) (text : str) :
  extract_purchases text x =
  (x, match call (extract_transactions text) x with
      | Err e => Err e
      | Ok t =>
          if (str_find (lit "PURCHASE") t =? -1)%Z
          then Err (ValueError "Could not find PURCHASE in text")
          else Ok (slice_from t (str_find (lit "PURCHASE") t))
      end).
Proof.
  unfold extract_purchases at 1. unfold bind at 1.
  rewrite extract_transactions_state.
  destruct (call (extract_transactions text) x) as [t|e]; [|done].
  unfold raise, ret. by case_match.
Qed.

Lemma extract_transactions_call (x : TransactionExtractor) (text : str) :
  call (extract_transactions text) x =
  let title_pos := str_find (formatted_start_marker x) text in
  if (title_pos =? -1)%Z
  then Err (ValueError "Could not find start marker in text")
  else
    let text_after_start := slice_from text title_pos in
    let stop_pos := str_find (stop_marker x) text_after_start in
    if (stop_pos =? -1)%Z
    then Err (ValueError "Could not find stop marker in text")
    else Ok (str_strip (slice_to text_after_start stop_pos)).
Proof.
  unfold call, extract_transactions, bind, get_self, ret, raise. cbn.
  by repeat case_match.
Qed.

Lemma init_fields (s stop : str) :
  start_marker (init s stop) = s /\ stop_marker (init s stop) = stop /\
  formatted_start_marker (init s stop) = format_loop s.
Proof. done. Qed.

Lemma format_loop_acc (s acc : str) :
  fold_left format_step s acc = acc ++ encode s.
Proof.
  revert acc; induction s as [|c s IH]; intros acc; simpl.
  - by rewrite app_nil_r.
  - rewrite IH. unfold format_step.
    destruct (Ascii.eqb c " "%char); simpl; by rewrite <- (assoc_L (++)).
Qed.

Lemma extract_transactions_ok_inv (x : TransactionExtractor) (text t : str) :
  call (extract_transactions text) x = Ok t ->
  exists i k, first_occ (formatted_start_marker x) text i /\
              first_occ (stop_marker x) (drop i text) k /\
              t = str_strip (take k (drop i text)).
Proof.
  rewrite extract_transactions_call. cbn zeta.
  destruct (str_find (formatted_start_marker x) text =? -1)%Z eqn:H1;
    [discriminate|].
  apply Z.eqb_neq, str_find_found in H1 as (i & Hi & Hfi).
  rewrite Hi, slice_from_nat.
  destruct (str_find (stop_marker x) (drop i text) =? -1)%Z eqn:H2;
    [discriminate|].
  apply Z.eqb_neq, str_find_found in H2 as (k & Hk & Hfk).
  rewrite Hk, slice_to_nat. intros [= <-]. by exists i, k.
Qed.

Lemma call_extract_purchases (x : TransactionExtractor) (text : str) :
  call (extract_purchases text) x =
  match call (extract_transactions text) x with
  | Err e => Err e
  | Ok t =>
      if (str_find (lit "PURCHASE") t =? -1)%Z
      then Err (ValueError "Could not find PURCHASE in text")
      else Ok (slice_from t (str_find (lit "PURCHASE") t))
  end.
Proof. unfold call at 1. by rewrite extract_purchases_unfold. Qed.

Section AggregateLemmas.
Context {A : Type} (add : A -> A -> A) (zero : A).

Lemma fold_spend_lookup (m : gmap string A)
    (purchases : list (TransactionRecord A)) (c : string) :
  fold_left (spend_step add zero) purchases m !! c =
  match filter (fun p => category p = c) purchases with
  | [] => m !! c
  | f => Some (fold_left add (map amount f) (default zero (m !! c)))
  end.
Proof.
  revert m; induction purchases as [|p ps IH]; intros m; simpl; [done|].
  rewrite IH, filter_cons. unfold spend_step.
  destruct (decide (category p = c)) as [<-|Hne].
  - rewrite lookup_insert_eq. by destruct (filter _ ps).
  - by rewrite lookup_insert_ne.
Qed.

Lemma filter_category_nil (purchases : list (TransactionRecord A))
    (c : string) :
  filter (fun p => category p = c) purchases = [] <->
  c ∉ map category purchases.
Proof.
  induction purchases as [|p ps IH]; simpl.
  - split; [intros _; apply not_elem_of_nil | done].
  - rewrite filter_cons, elem_of_cons.
    destruct (decide (category p = c)) as [<-|Hne].
    + split; [done|]. intros Hn. exfalso. apply Hn. by left.
    + rewrite IH. split.
      * intros Hn [->|Hin]; [done | by apply Hn].
      * intros Hn Hin. apply Hn. by right.
Qed.

Context (Hassoc : forall a b c, add (add a b) c = add a (add b c))
        (Hcomm : forall a b, add a b = add b a).

Lemma spend_step_swap (m : gmap string A) (p q : TransactionRecord A) :
  spend_step add zero (spend_step add zero m p) q =
  spend_step add zero (spend_step add zero m q) p.
Proof.
  unfold spend_step.
  destruct (decide (category p = category q)) as [Heq|Hne].
  - rewrite Heq, !lookup_insert_eq, !insert_insert_eq. f_equal.
    simpl. by rewrite !Hassoc, (Hcomm (amount p)).
  - rewrite (lookup_insert_ne _ (category p) (category q)) by done.
    rewrite (lookup_insert_ne _ (category q) (category p)) by done.
    by rewrite insert_insert_ne.
Qed.

Lemma fold_spend_perm (ps qs : list (TransactionRecord A)) :
  ps ≡ₚ qs -> forall m : gmap string A,
  fold_left (spend_step add zero) ps m = fold_left (spend_step add zero) qs m.
Proof.
  induction 1 as [|p ps qs _ IH|p q ps|ps qs rs _ IH1 _ IH2];
    intros m; simpl.
  - done.
  - apply IH.
  - by rewrite spend_step_swap.
  - by rewrite IH1, IH2.
Qed.
End AggregateLemmas.

(** Closes [forall j, P j -> occurs_at n t j = false] on concrete data
    when [P] bounds [j]. *)
Ltac range_check :=
  let j := fresh "j" in
  let Hj := fresh "Hj" in
  intros j Hj; vm_compute in Hj;
  repeat (first [lia | destruct j as [|j]; [first [lia | reflexivity] |]]).

(** * Claims *)

(** ** C1: [extract_transactions] returns the stripped text from the
    first occurrence of the encoded start marker up to (not including)
    the first occurrence of the stop marker at or after it. *)
Theorem extract_transactions_spec (x : TransactionExtractor) (text : str)
    (i j : nat) :
  first_occ (formatted_start_marker x) text i ->
  occurs_at (stop_marker x) text j = true -> i <= j ->
  (forall j', i <= j' < j -> occurs_at (stop_marker x) text j' = false) ->
  call (extract_transactions text) x =
  Ok (str_strip (take (j - i) (drop i text))).
Proof.
  intros Hstart Hstop Hij Hbefore.
  rewrite extract_transactions_call. cbn zeta.
  rewrite (str_find_first_occ _ _ _ Hstart), of_nat_neq_m1, slice_from_nat.
  assert (Hfirst : first_occ (stop_marker x) (drop i text) (j - i)).
  { apply first_occ_shift; replace (i + (j - i)) with j by lia; done. }
  rewrite (str_find_first_occ _ _ _ Hfirst), of_nat_neq_m1, slice_to_nat.
  done.
Qed.

Lemma extract_transactions_spec_witness :
  call (extract_transactions (lit "x AABB zz STOP y"))
       (init (lit "AB") (lit "STOP"))
  = Ok (str_strip (take (10 - 2) (drop 2 (lit "x AABB zz STOP y")))).
Proof.
  apply (extract_transactions_spec _ _ 2 10).
  - split; [reflexivity | range_check].
  - reflexivity.
  - lia.
  - range_check.
Defined.

(** ** C2 (as stated): on [filler ++ encode start ++ middle ++ stop ++
    trailing], with neither marker inside the fillers or the middle,
    [extract_transactions] would return [strip middle].  It does not: the
    encoded start marker is part of the result. *)
Lemma extract_transactions_constructed_counterexample :
  ~ (forall (s stop filler middle trailing : str),
       (forall j, occurs_at (format_loop s) filler j = false) ->
       (forall j, occurs_at (format_loop s) middle j = false) ->
       (forall j, occurs_at (format_loop s) trailing j = false) ->
       (forall j, occurs_at stop filler j = false) ->
       (forall j, occurs_at stop middle j = false) ->
       (forall j, occurs_at stop trailing j = false) ->
       call (extract_transactions
               (filler ++ format_loop s ++ middle ++ stop ++ trailing))
            (init s stop)
       = Ok (str_strip middle)).
Proof.
  intros H.
  specialize (H (lit "A") (lit "Z") (lit "q ") (lit " x ") (lit " r")).
  assert (Hno : forall n t, str_find n t = (-1)%Z ->
                  forall j, occurs_at n t j = false) by apply str_find_m1.
  specialize (H ltac:(apply Hno; reflexivity) ltac:(apply Hno; reflexivity)
                ltac:(apply Hno; reflexivity) ltac:(apply Hno; reflexivity)
                ltac:(apply Hno; reflexivity) ltac:(apply Hno; reflexivity)).
  vm_compute in H. discriminate H.
Qed.

(** ** C2 (amended): when the first occurrence of the encoded start marker
    in [filler ++ encode start] is the appended one, and the first
    occurrence of [stop] in [encode start ++ middle ++ stop] is the appended
    one, [extract_transactions] returns [strip (encode start ++ middle)]. *)
Theorem extract_transactions_constructed (s stop filler middle trailing : str) :
  first_occ (format_loop s) (filler ++ format_loop s) (length filler) ->
  first_occ stop (format_loop s ++ middle ++ stop)
            (length (format_loop s ++ middle)) ->
  call (extract_transactions
          (filler ++ format_loop s ++ middle ++ stop ++ trailing))
       (init s stop)
  = Ok (str_strip (format_loop s ++ middle)).
Proof.
  intros Hstart Hstop.
  rewrite extract_transactions_call. cbn zeta.
  assert (Hs : first_occ (format_loop s)
                 (filler ++ format_loop s ++ middle ++ stop ++ trailing)
                 (length filler)).
  { rewrite (assoc_L (++)). apply first_occ_app; [done|].
    rewrite length_app. lia. }
  change (formatted_start_marker (init s stop)) with (format_loop s).
  rewrite (str_find_first_occ _ _ _ Hs), of_nat_neq_m1, slice_from_nat.
  rewrite drop_app_length.
  assert (Ht : first_occ stop (format_loop s ++ middle ++ stop ++ trailing)
                 (length (format_loop s ++ middle))).
  { replace (format_loop s ++ middle ++ stop ++ trailing)
      with ((format_loop s ++ middle ++ stop) ++ trailing)
      by by rewrite <- !(assoc_L (++)).
    apply first_occ_app; [done|]. rewrite !length_app. lia. }
  change (stop_marker (init s stop)) with stop.
  rewrite (str_find_first_occ _ _ _ Ht), of_nat_neq_m1, slice_to_nat.
  rewrite (assoc_L (++)), take_app_length. done.
Qed.

Lemma extract_transactions_constructed_witness :
  call (extract_transactions
          (lit "q " ++ format_loop (lit "A") ++ lit " x " ++ lit "Z" ++ lit " r"))
       (init (lit "A") (lit "Z"))
  = Ok (str_strip (format_loop (lit "A") ++ lit " x ")).
Proof.
  apply extract_transactions_constructed.
  - split; [reflexivity | range_check].
  - split; [reflexivity | range_check].
Defined.

(** ** C3: the [formatted_start_marker] set at construction is [encode]
    of the start marker: a non-space [c] becomes [c c], a space stays one
    space. *)
Theorem formatted_start_marker_encode (s stop : str) :
  formatted_start_marker (init s stop) = encode s.
Proof.
  change (formatted_start_marker (init s stop)) with (format_loop s).
  unfold format_loop. by rewrite format_loop_acc.
Qed.

(** ** C4 (as stated): [init "AB CD"] has formatted marker ["AABB  CCDD"]
    (two spaces).  It does not: the space is kept as one space. *)
Lemma format_AB_CD_counterexample :
  formatted_start_marker (init (lit "AB CD") (lit "Totals Year-to-Date"))
  <> lit "AABB  CCDD".
Proof. vm_compute. discriminate. Qed.

(** ** C4 (amended): the encoding of ["AB CD"] is ["AABB CCDD"], with a
    single space. *)
Theorem format_AB_CD (stop : str) :
  formatted_start_marker (init (lit "AB CD") stop) = lit "AABB CCDD".
Proof. reflexivity. Qed.

(** ** C5: [extract_purchases] propagates the exception of
    [extract_transactions] unchanged; otherwise, when ["PURCHASE"] occurs
    in the transactions text, it returns that text from the first
    ["PURCHASE"] to its end, untrimmed.  In particular, for transactions
    text [pre ++ "PURCHASEfooPURCHASEbar" ++ post] with no ["PURCHASE"]
    before the shown one, the result is ["PURCHASEfooPURCHASEbar" ++ post]. *)
Theorem extract_purchases_spec (x : TransactionExtractor) (text : str) :
  (forall e, call (extract_transactions text) x = Err e ->
             call (extract_purchases text) x = Err e) /\
  (forall t i, call (extract_transactions text) x = Ok t ->
               first_occ (lit "PURCHASE") t i ->
               call (extract_purchases text) x = Ok (drop i t)) /\
  (forall pre post,
     call (extract_transactions text) x =
       Ok (pre ++ lit "PURCHASEfooPURCHASEbar" ++ post) ->
     first_occ (lit "PURCHASE") (pre ++ lit "PURCHASE") (length pre) ->
     call (extract_purchases text) x =
       Ok (lit "PURCHASEfooPURCHASEbar" ++ post)).
Proof.
  rewrite call_extract_purchases.
  assert (Hgen : forall t i, call (extract_transactions text) x = Ok t ->
            first_occ (lit "PURCHASE") t i ->
            match call (extract_transactions text) x with
            | Err e => Err e
            | Ok t =>
                if (str_find (lit "PURCHASE") t =? -1)%Z
                then Err (ValueError "Could not find PURCHASE in text")
                else Ok (slice_from t (str_find (lit "PURCHASE") t))
            end = Ok (drop i t)).
  { intros t i Ht Hi. rewrite Ht, (str_find_first_occ _ _ _ Hi).
    by rewrite of_nat_neq_m1, slice_from_nat. }
  split; [|split].
  - intros e He. by rewrite He.
  - exact Hgen.
  - intros pre post Ht Hfirst.
    rewrite (Hgen _ (length pre) Ht).
    + change (lit "PURCHASEfooPURCHASEbar")
        with (lit "PURCHASE" ++ lit "fooPURCHASEbar").
      rewrite <- !(assoc_L (++)), drop_app_length. done.
    + change (lit "PURCHASEfooPURCHASEbar")
        with (lit "PURCHASE" ++ lit "fooPURCHASEbar").
      rewrite <- !(assoc_L (++)), (assoc_L (++) pre).
      apply first_occ_app; [done|]. rewrite length_app. lia.
Qed.

Lemma extract_purchases_spec_witness :
  call (extract_purchases (lit "x AABB zz"))
       (init (lit "AB") (lit "STOP"))
  = Err (ValueError "Could not find stop marker in text") /\
  call (extract_purchases (lit "x AABB q PURCHASE r STOP"))
       (init (lit "AB") (lit "STOP"))
  = Ok (drop 7 (lit "AABB q PURCHASE r")) /\
  call (extract_purchases (lit "x AABB zz PURCHASEfooPURCHASEbar q STOP y"))
       (init (lit "AB") (lit "STOP"))
  = Ok (lit "PURCHASEfooPURCHASEbar" ++ lit " q").
Proof.
  split; [|split].
  - apply (proj1 (extract_purchases_spec _ _)). reflexivity.
  - apply (proj1 (proj2 (extract_purchases_spec _ _))).
    + reflexivity.
    + split; [reflexivity | range_check].
  - apply (proj2 (proj2 (extract_purchases_spec _ _)) (lit "AABB zz ")).
    + reflexivity.
    + split; [reflexivity | range_check].
Defined.

(** ** C6: a missing encoded start marker raises the start-marker
    [ValueError]; a stop marker absent at and after the start marker
    raises the stop-marker [ValueError]; transactions text without
    ["PURCHASE"] makes [extract_purchases] raise the ["PURCHASE"]
    [ValueError].  Each message says which marker was not found. *)
Theorem extract_marker_errors (x : TransactionExtractor) (text : str) :
  ((forall j, occurs_at (formatted_start_marker x) text j = false) ->
   call (extract_transactions text) x =
     Err (ValueError "Could not find start marker in text")) /\
  (forall i, first_occ (formatted_start_marker x) text i ->
   (forall j, i <= j -> occurs_at (stop_marker x) text j = false) ->
   call (extract_transactions text) x =
     Err (ValueError "Could not find stop marker in text")) /\
  (forall t, call (extract_transactions text) x = Ok t ->
   (forall j, occurs_at (lit "PURCHASE") t j = false) ->
   call (extract_purchases text) x =
     Err (ValueError "Could not find PURCHASE in text")).
Proof.
  split; [|split].
  - intros Hno. rewrite extract_transactions_call. cbn zeta.
    by rewrite (str_find_not_found _ _ Hno).
  - intros i Hi Hno. rewrite extract_transactions_call. cbn zeta.
    rewrite (str_find_first_occ _ _ _ Hi), of_nat_neq_m1, slice_from_nat.
    rewrite str_find_not_found; [done|].
    intros j. rewrite occurs_at_drop. apply Hno. lia.
  - intros t Ht Hno. rewrite call_extract_purchases, Ht.
    by rewrite (str_find_not_found _ _ Hno).
Qed.

Lemma extract_marker_errors_witness :
  call (extract_transactions (lit "x AB zz STOP"))
       (init (lit "AB") (lit "STOP"))
  = Err (ValueError "Could not find start marker in text") /\
  call (extract_transactions (lit "STOP AABB zz"))
       (init (lit "AB") (lit "STOP"))
  = Err (ValueError "Could not find stop marker in text") /\
  call (extract_purchases (lit "x AABB zz STOP"))
       (init (lit "AB") (lit "STOP"))
  = Err (ValueError "Could not find PURCHASE in text").
Proof.
  split; [|split].
  - apply (proj1 (extract_marker_errors _ _)).
    apply str_find_m1. reflexivity.
  - apply (proj1 (proj2 (extract_marker_errors _ _)) 5).
    + split; [reflexivity | range_check].
    + intros j Hj. replace j with (5 + (j - 5)) by lia.
      rewrite <- occurs_at_drop. apply str_find_m1. reflexivity.
  - apply (proj2 (proj2 (extract_marker_errors _ _)) (lit "AABB zz")).
    + reflexivity.
    + apply str_find_m1. reflexivity.
Defined.

(** ** C9: calling [extract_transactions] or [extract_purchases] leaves
    every attribute of the extractor unchanged; construction sets
    [formatted_start_marker] from [start_marker] once; and for an
    extractor so built, both results depend only on the text and the two
    markers. *)
Theorem extractor_frame :
  (forall (x : TransactionExtractor) (text : str),
     fst (extract_transactions text x) = x /\
     fst (extract_purchases text x) = x) /\
  (forall s stop : str,
     start_marker (init s stop) = s /\ stop_marker (init s stop) = stop /\
     formatted_start_marker (init s stop) = format_loop s) /\
  (forall (s stop text : str) (x : TransactionExtractor),
     start_marker x = s -> stop_marker x = stop ->
     formatted_start_marker x = format_loop s ->
     call (extract_transactions text) x =
       call (extract_transactions text) (init s stop) /\
     call (extract_purchases text) x =
       call (extract_purchases text) (init s stop)).
Proof.
  split; [|split].
  - intros x text. rewrite extract_transactions_state, extract_purchases_unfold.
    done.
  - apply init_fields.
  - intros s stop text [s' stop' f] Hs Hstop Hf; simpl in *; subst. done.
Qed.

Lemma extractor_frame_witness :
  call (extract_purchases (lit "x AABB PURCHASE q STOP"))
       {| start_marker := lit "AB"; stop_marker := lit "STOP";
          formatted_start_marker := lit "AABB" |}
  = call (extract_purchases (lit "x AABB PURCHASE q STOP"))
         (init (lit "AB") (lit "STOP")).
Proof.
  apply (proj2 (proj2 (proj2 extractor_frame) (lit "AB") (lit "STOP")
    (lit "x AABB PURCHASE q STOP")
    {| start_marker := lit "AB"; stop_marker := lit "STOP";
       formatted_start_marker := lit "AABB" |}
    eq_refl eq_refl eq_refl)).
Defined.

(** ** C10: a successful [extract_purchases] result starts with
    ["PURCHASE"], is a suffix of the [extract_transactions] result, and does
    not contain the stop marker. *)
Theorem extract_purchases_suffix (x : TransactionExtractor) (text r : str) :
  call (extract_purchases text) x = Ok r ->
  exists t, call (extract_transactions text) x = Ok t /\
            is_prefix (lit "PURCHASE") r = true /\
            (exists p, t = p ++ r) /\
            (forall j, occurs_at (stop_marker x) r j = false).
Proof.
  rewrite call_extract_purchases.
  destruct (call (extract_transactions text) x) as [t|e] eqn:Ht;
    [|discriminate].
  destruct (str_find (lit "PURCHASE") t =? -1)%Z eqn:Hp; [discriminate|].
  pose proof Hp as Hp'.
  apply Z.eqb_neq, str_find_found in Hp' as (i & Hi & [Hocc _]).
  rewrite Hi, slice_from_nat. intros [= <-].
  exists t. split; [done|]. split; [done|]. split.
  { exists (take i t). by rewrite take_drop. }
  intros j. destruct (occurs_at (stop_marker x) (drop i t) j) eqn:Hs; [|done].
  exfalso.
  apply extract_transactions_ok_inv in Ht as (i0 & k & _ & Hk & ->).
  destruct (stop_marker x) as [|c stop] eqn:Estop.
  - (* an empty stop marker is found at once: nothing is extracted *)
    assert (k = 0) as ->.
    { destruct k as [|k]; [done|]. destruct Hk as [_ Hb].
      specialize (Hb 0 ltac:(lia)). unfold occurs_at in Hb. by destruct (drop 0 _). }
    rewrite take_0 in Hp. discriminate Hp.
  - apply occurs_at_app in Hs as [rest Hrest].
    destruct (str_strip_infix (take k (drop i0 text))) as (u & w & Huw).
    apply (no_occ_before_first (c :: stop) (drop i0 text) k
             (u ++ take i (str_strip (take k (drop i0 text))) ++ take j
                (drop i (str_strip (take k (drop i0 text)))))
             (rest ++ w)); [done|done|].
    rewrite Huw at 1.
    rewrite <- (take_drop i (str_strip (take k (drop i0 text)))) at 1.
    rewrite <- (take_drop j (drop i (str_strip (take k (drop i0 text))))) at 1.
    rewrite Hrest. by rewrite <- !(assoc_L (++)).
Qed.

Lemma extract_purchases_suffix_witness :
  exists t, call (extract_transactions (lit "x AABB q PURCHASE r STOP"))
              (init (lit "AB") (lit "STOP")) = Ok t /\
            is_prefix (lit "PURCHASE") (lit "PURCHASE r") = true /\
            (exists p, t = p ++ lit "PURCHASE r") /\
            (forall j, occurs_at (lit "STOP") (lit "PURCHASE r") j = false).
Proof.
  apply (extract_purchases_suffix (init (lit "AB") (lit "STOP"))).
  reflexivity.
Defined.

(** ** C7: the totals map has an entry exactly for each category in the
    list, equal to the sum (from [0], in list order) of the amounts of the
    records with that category; the empty list gives the empty map. *)
Theorem spend_by_category_totals {A : Type} (add : A -> A -> A) (zero : A)
    (purchases : list (TransactionRecord A)) :
  (forall c : string,
     spend_by_category add zero purchases !! c =
     if decide (c ∈ map category purchases)
     then Some (fold_left add
                  (map amount (filter (fun p => category p = c) purchases))
                  zero)
     else None) /\
  spend_by_category add zero [] = ∅.
Proof.
  split; [|done].
  intros c. unfold spend_by_category. rewrite fold_spend_lookup, lookup_empty.
  destruct (decide (c ∈ map category purchases)) as [Hin|Hnin].
  - destruct (filter _ purchases) eqn:Hf; [|done].
    exfalso. by apply filter_category_nil in Hf.
  - by rewrite (proj2 (filter_category_nil purchases c) Hnin).
Qed.

(** ** C8: for an associative and commutative [+] (exact decimal
    arithmetic; floats are only so up to rounding), permuting the records
    does not change the totals map. *)
Theorem spend_by_category_perm {A : Type} (add : A -> A -> A) (zero : A)
    (Hassoc : forall a b c, add (add a b) c = add a (add b c))
    (Hcomm : forall a b, add a b = add b a)
    (purchases purchases' : list (TransactionRecord A)) :
  purchases ≡ₚ purchases' ->
  spend_by_category add zero purchases = spend_by_category add zero purchases'.
Proof.
  intros Hperm. unfold spend_by_category. by apply fold_spend_perm.
Qed.

Lemma spend_by_category_perm_witness :
  spend_by_category Z.add 0%Z [food1; food2; shop1] =
  spend_by_category Z.add 0%Z [shop1; food2; food1].
Proof.
  apply (spend_by_category_perm Z.add 0%Z
           (fun a b c => eq_sym (Z.add_assoc a b c)) Z.add_comm).
  eapply perm_trans; [apply perm_skip, perm_swap|].
  eapply perm_trans; [apply perm_swap|].
  apply perm_skip, perm_swap.
Defined.

(** * Lemmas on main.py and app.py *)

Lemma last_index_app (c : ascii) (l r : str) :
  last_index c (l ++ r) =
  match last_index c r with
  | Some i => Some (length l + i)
  | None => last_index c l
  end.
Proof.
  induction l as [|d l IH]; simpl.
  - by destruct (last_index c r).
  - rewrite IH. by destruct (last_index c r).
Qed.

Lemma lower_char_dot (c : ascii) : lower_char c = "."%char -> c = "."%char.
Proof.
  destruct c as [[] [] [] [] [] [] [] []]; vm_compute; intros H;
    first [reflexivity | discriminate H].
Qed.

Lemma lower_dot (c : ascii) : lower_char "."%char = "."%char.
Proof. reflexivity. Qed.

Lemma path_suffix_pdf_iff (p : str) :
  str_lower (path_suffix p) = lit ".pdf" <->
  exists stem x, path_name p = stem ++ x /\ stem <> [] /\ str_lower x = lit ".pdf".
Proof.
  unfold path_suffix. set (name := path_name p). split.
  - destruct ((0 <? rfind_char "." name)%Z &&
              (rfind_char "." name <? Z.of_nat (length name) - 1)%Z) eqn:G;
      [|discriminate].
    apply andb_true_iff in G as [G1 G2]. apply Z.ltb_lt in G1, G2.
    unfold slice_from. destruct (Z.ltb_spec (rfind_char "." name) 0); [lia|].
    intros Hl. exists (take (Z.to_nat (rfind_char "." name)) name),
                      (drop (Z.to_nat (rfind_char "." name)) name).
    split; [by rewrite take_drop|]. split; [|done].
    intros Ht. apply (f_equal length) in Ht. rewrite length_take in Ht.
    simpl in Ht. lia.
  - intros (stem & x & Hname & Hstem & Hx).
    destruct x as [|c0 [|c1 [|c2 [|c3 [|c4 x]]]]]; try discriminate Hx.
    injection Hx as H0 H1 H2 H3.
    apply lower_char_dot in H0. subst c0.
    assert (Hlast : last_index "." name = Some (length stem)).
    { rewrite Hname, last_index_app. simpl.
      assert (Hn : forall c, lower_char c <> "."%char -> Ascii.eqb c "." = false).
      { intros c Hc. apply Ascii.eqb_neq. intros ->. by apply Hc. }
      rewrite (Hn c1), (Hn c2), (Hn c3) by (rewrite ?H1, ?H2, ?H3; discriminate).
      by rewrite Nat.add_0_r. }
    unfold rfind_char. rewrite Hlast.
    assert (length stem <> 0) by (destruct stem; simpl; [done | lia]).
    assert (length name = length stem + 4) by (rewrite Hname, length_app; done).
    replace ((0 <? Z.of_nat (length stem))%Z &&
             (Z.of_nat (length stem) <? Z.of_nat (length name) - 1)%Z) with true
      by (symmetry; apply andb_true_iff; split; apply Z.ltb_lt; lia).
    rewrite slice_from_nat, Hname, drop_app_length. simpl.
    by rewrite H1, H2, H3.
Qed.

Lemma lstrip_nil_iff (s : str) :
  lstrip s = [] <-> Forall (fun c => py_isspace c = true) s.
Proof.
  induction s as [|c s IH]; simpl.
  - split; [constructor | done].
  - destruct (py_isspace c) eqn:E.
    + rewrite IH. split; [by constructor | by inversion 1].
    + split; [done|]. inversion 1; congruence.
Qed.

Lemma lstrip_head (s : str) :
  lstrip s = [] \/ exists c r, lstrip s = c :: r /\ py_isspace c = false.
Proof.
  induction s as [|c s IH]; simpl; [by left|].
  destruct (py_isspace c) eqn:E; [done|]. right. by exists c, s.
Qed.

Lemma str_strip_nil_iff (s : str) :
  str_strip s = [] <-> Forall (fun c => py_isspace c = true) s.
Proof.
  unfold str_strip, rstrip. split.
  - intros H. apply (f_equal (@rev ascii)) in H. rewrite rev_involutive in H.
    simpl in H. apply lstrip_nil_iff, Forall_rev in H.
    rewrite rev_involutive in H.
    apply lstrip_nil_iff.
    destruct (lstrip_head s) as [Hn|(c & r & Hc & Hsp)]; [done|].
    rewrite Hc in H. inversion H; congruence.
  - intros H. apply lstrip_nil_iff in H. by rewrite H.
Qed.

Lemma with_logs_nil (w : World) : with_logs w [] = w.
Proof. destruct w; unfold with_logs; simpl. by rewrite app_nil_r. Qed.

Lemma with_logs_app (w : World) (l1 l2 : list log_entry) :
  with_logs (with_logs w l1) l2 = with_logs w (l1 ++ l2).
Proof. unfold with_logs; simpl. by rewrite (assoc_L (++)). Qed.

Lemma io_log_run (w : World) (l : log_entry) :
  io_log l w = (with_logs w [l], Done tt).
Proof. reflexivity. Qed.

Lemma read_page_run (text : str) (n : nat) (p : page) (w : World) :
  read_page text n p w = (with_logs w (page_logs n p), Done (text ++ page_out p)).
Proof.
  destruct p as [t| |e]; simpl.
  - unfold io_bind. destruct (bool_decide (t = [])); simpl.
    + done.
    + by rewrite with_logs_nil.
  - unfold io_bind, io_log, io_ret, with_logs; simpl.
    rewrite app_nil_r, <- (assoc_L (++)). done.
  - unfold io_bind, io_log, io_ret, with_logs; simpl. by rewrite app_nil_r.
Qed.

Lemma read_pages_run (text : str) (n : nat) (pages : list page) (w : World) :
  read_pages text n pages w =
  (with_logs w (pages_logs n pages), Done (text ++ flat_map page_out pages)).
Proof.
  revert text n w; induction pages as [|p ps IH]; intros text n w; simpl.
  - by rewrite with_logs_nil, app_nil_r.
  - unfold io_bind. rewrite read_page_run, IH, with_logs_app.
    by rewrite (assoc_L (++)).
Qed.

(** [read_pdf] on an existing path with a [.pdf] suffix that opens. *)
Lemma read_pdf_run (pdf_open : str -> outcome (list page)) (p : str)
    (pages : list page) (w : World) :
  p ∈ files w -> str_lower (path_suffix p) = lit ".pdf" ->
  pdf_open p = Done pages ->
  read_pdf pdf_open p w =
  let text := flat_map page_out pages in
  if bool_decide (str_strip text = [])
  then (with_logs w ([LogReading p] ++ pages_logs 1 pages ++
          [LogNoText; LogReadError (lit "Failed to extract any text from the PDF")]),
        Thrown (AppExn KValueError (lit "Failed to extract any text from the PDF")))
  else (with_logs w ([LogReading p] ++ pages_logs 1 pages ++ [LogExtracted]),
        Done text).
Proof.
  intros Hin Hsuf Hopen.
  unfold read_pdf, io_try_except, io_bind, io_world.
  rewrite bool_decide_false by (intros Hn; by apply Hn).
  rewrite Hsuf, bool_decide_true by done. simpl.
  unfold io_lift. rewrite Hopen, read_pages_run. simpl.
  destruct (bool_decide (str_strip (flat_map page_out pages) = [])); simpl;
    unfold io_log, io_bind, io_throw, io_ret, with_logs; simpl;
    by rewrite <- !(assoc_L (++)).
Qed.

Lemma read_pdf_missing (pdf_open : str -> outcome (list page)) (p : str) (w : World) :
  p ∉ files w ->
  read_pdf pdf_open p w =
  (with_logs w [LogReadError (lit "PDF file not found at: " ++ p)],
   Thrown (AppExn KFileNotFoundError (lit "PDF file not found at: " ++ p))).
Proof.
  intros Hn. unfold read_pdf, io_try_except, io_bind, io_world.
  rewrite bool_decide_true by done. reflexivity.
Qed.

Lemma read_pdf_bad_suffix (pdf_open : str -> outcome (list page)) (p : str) (w : World) :
  p ∈ files w -> str_lower (path_suffix p) <> lit ".pdf" ->
  read_pdf pdf_open p w =
  (with_logs w [LogReadError (lit "File must be a PDF. Got: " ++ path_suffix p)],
   Thrown (AppExn KValueError (lit "File must be a PDF. Got: " ++ path_suffix p))).
Proof.
  intros Hin Hsuf. unfold read_pdf, io_try_except, io_bind, io_world.
  rewrite bool_decide_false by (intros Hn; by apply Hn).
  rewrite bool_decide_false by done. reflexivity.
Qed.

Lemma read_pdf_open_fail (pdf_open : str -> outcome (list page)) (p : str)
    (e : app_exn) (w : World) :
  p ∈ files w -> str_lower (path_suffix p) = lit ".pdf" ->
  pdf_open p = Thrown e ->
  read_pdf pdf_open p w =
  (with_logs w [LogReading p; LogReadError (exc_str e)], Thrown e).
Proof.
  intros Hin Hsuf Hopen. unfold read_pdf, io_try_except, io_bind, io_world.
  rewrite bool_decide_false by (intros Hn; by apply Hn).
  rewrite Hsuf, bool_decide_true by done. simpl.
  unfold io_lift. rewrite Hopen. simpl.
  unfold io_throw, with_logs; simpl. by rewrite <- (assoc_L (++)).
Qed.

(** Every run of [read_pdf] ends in one of the four shapes above. *)
Lemma read_pdf_cases (pdf_open : str -> outcome (list page)) (p : str) (w : World) :
  (p ∉ files w) \/
  (p ∈ files w /\ str_lower (path_suffix p) <> lit ".pdf") \/
  (exists e, p ∈ files w /\ str_lower (path_suffix p) = lit ".pdf" /\
             pdf_open p = Thrown e) \/
  (exists pages, p ∈ files w /\ str_lower (path_suffix p) = lit ".pdf" /\
                 pdf_open p = Done pages).
Proof.
  destruct (decide (p ∈ files w)) as [Hin|Hn]; [|by left].
  destruct (decide (str_lower (path_suffix p) = lit ".pdf")) as [Hs|Hs];
    [|right; left; done].
  right; right. destruct (pdf_open p) as [pages|e] eqn:Ho.
  - right. by exists pages.
  - left. by exists e.
Qed.

Lemma Forall_space_flat_map (pages : list page) :
  Forall (fun c => py_isspace c = true) (flat_map page_out pages) <->
  Forall (fun pg => forall t, pg = PageText t ->
                    Forall (fun c => py_isspace c = true) t) pages.
Proof.
  induction pages as [|pg ps IH]; simpl.
  - split; constructor.
  - rewrite Forall_app, IH, Forall_cons. split.
    + intros [H1 H2]. split; [|done]. intros t ->. simpl in H1.
      by apply Forall_app in H1 as [H1 _].
    + intros [H1 H2]. split; [|done].
      destruct pg as [t| |e]; simpl; [|constructor|constructor].
      apply Forall_app. split; [by apply H1|]. by repeat constructor.
Qed.

(** * Properties of main.py and app.py *)

(** ** [read_pdf] returns the page texts, each followed by a newline, in
    page order; a page whose [extract_text()] returns [None] or raises
    adds nothing; the text returned is never blank. *)
Theorem read_pdf_text (pdf_open : str -> outcome (list page)) (p text : str)
    (w : World) :
  snd (read_pdf pdf_open p w) = Done text ->
  exists pages, pdf_open p = Done pages /\
                text = flat_map page_out pages /\
                ~ Forall (fun c => py_isspace c = true) text.
Proof.
  destruct (read_pdf_cases pdf_open p w)
    as [Hn|[[Hin Hs]|[(e & Hin & Hs & Ho)|(pages & Hin & Hs & Ho)]]].
  - by rewrite read_pdf_missing.
  - by rewrite read_pdf_bad_suffix.
  - by rewrite (read_pdf_open_fail _ _ e).
  - rewrite (read_pdf_run _ _ pages) by done. cbn zeta.
    case_bool_decide as Hb; [done|]. simpl. intros [= <-].
    exists pages. split; [done|]. split; [done|].
    by rewrite <- str_strip_nil_iff.
Qed.

Lemma read_pdf_text_witness :
  exists pages,
    (fun _ : str => Done [PageText (lit "hi"); PageNone]) (lit "/tmp/a.pdf")
      = Done pages /\
    lit "hi" ++ ["010"%char] = flat_map page_out pages /\
    ~ Forall (fun c => py_isspace c = true) (lit "hi" ++ ["010"%char]).
Proof.
  apply (read_pdf_text _ (lit "/tmp/a.pdf") _
           {| files := {[lit "/tmp/a.pdf"]}; api_calls := []; logs := [] |}).
  reflexivity.
Defined.

(** ** On an existing [.pdf] path that opens, [read_pdf] raises
    [ValueError("Failed to extract any text from the PDF")] exactly when
    every page's text is whitespace only (pages returning [None] or raising
    count as empty; so does a PDF without pages). *)
Theorem read_pdf_blank_iff (pdf_open : str -> outcome (list page)) (p : str)
    (pages : list page) (w : World) :
  p ∈ files w -> str_lower (path_suffix p) = lit ".pdf" ->
  pdf_open p = Done pages ->
  snd (read_pdf pdf_open p w) =
    Thrown (AppExn KValueError (lit "Failed to extract any text from the PDF")) <->
  Forall (fun pg => forall t, pg = PageText t ->
                    Forall (fun c => py_isspace c = true) t) pages.
Proof.
  intros Hin Hs Ho. rewrite (read_pdf_run _ _ pages) by done. cbn zeta.
  rewrite <- Forall_space_flat_map, <- str_strip_nil_iff.
  case_bool_decide as Hb; simpl; split; done.
Qed.

Lemma read_pdf_blank_iff_witness :
  snd (read_pdf (fun _ => Done [PageText (lit " "); PageNone; PageText []])
          (lit "/tmp/a.pdf")
          {| files := {[lit "/tmp/a.pdf"]}; api_calls := []; logs := [] |}) =
    Thrown (AppExn KValueError (lit "Failed to extract any text from the PDF")).
Proof.
  apply (read_pdf_blank_iff _ _ [PageText (lit " "); PageNone; PageText []]).
  - set_solver.
  - reflexivity.
  - reflexivity.
  - repeat constructor; intros t Ht; inversion Ht; subst; repeat constructor.
Defined.

(** ** Whenever [read_pdf] raises [e], it changes nothing but the log, and
    the last entry it logs is ["Error reading PDF: " + str(e)]: the
    exception is logged once and re-raised unchanged. *)
Theorem read_pdf_error_logged (pdf_open : str -> outcome (list page)) (p : str)
    (e : app_exn) (w : World) :
  snd (read_pdf pdf_open p w) = Thrown e ->
  exists l, fst (read_pdf pdf_open p w) =
            with_logs w (l ++ [LogReadError (exc_str e)]).
Proof.
  destruct (read_pdf_cases pdf_open p w)
    as [Hn|[[Hin Hs]|[(e' & Hin & Hs & Ho)|(pages & Hin & Hs & Ho)]]].
  - rewrite read_pdf_missing by done. simpl. intros [= <-]. by exists [].
  - rewrite read_pdf_bad_suffix by done. simpl. intros [= <-]. by exists [].
  - rewrite (read_pdf_open_fail _ _ e') by done. simpl. intros [= <-].
    by exists [LogReading p].
  - rewrite (read_pdf_run _ _ pages) by done. cbn zeta.
    case_bool_decide; simpl; [|done]. intros [= <-].
    exists ([LogReading p] ++ pages_logs 1 pages ++ [LogNoText]).
    f_equal. by rewrite <- !(assoc_L (++)).
Qed.

Lemma read_pdf_error_logged_witness :
  exists l, fst (read_pdf (fun _ => Done []) (lit "/tmp/a.pdf")
                 {| files := {[lit "/tmp/a.pdf"]}; api_calls := []; logs := [] |}) =
            with_logs {| files := {[lit "/tmp/a.pdf"]}; api_calls := []; logs := [] |}
              (l ++ [LogReadError (lit "Failed to extract any text from the PDF")]).
Proof.
  apply (read_pdf_error_logged _ _
           (AppExn KValueError (lit "Failed to extract any text from the PDF"))).
  reflexivity.
Defined.



(** ** [read_pdf]'s suffix check passes exactly when the file name is a
    non-empty stem followed by [.pdf] in any letter case: so [a.PDF] and
    [..pdf] pass, while [.pdf], [a.pdf.] and [a.pdfx] do not. *)
Theorem path_suffix_pdf (p : str) :
  str_lower (path_suffix p) = lit ".pdf" <->
  exists stem x, path_name p = stem ++ x /\ stem <> [] /\ str_lower x = lit ".pdf".
Proof. apply path_suffix_pdf_iff. Qed.

(** ** The endpoint's gate [filename.lower().endswith('.pdf')] accepts
    every name [read_pdf]'s suffix check accepts, but not conversely: the
    name [.pdf] passes the gate and fails the suffix check. *)
Theorem pdf_gate_vs_suffix (p : str) :
  (str_lower (path_suffix p) = lit ".pdf" ->
   ends_with (str_lower (path_name p)) (lit ".pdf") = true) /\
  (ends_with (str_lower (path_name (lit "/tmp/.pdf"))) (lit ".pdf") = true /\
   str_lower (path_suffix (lit "/tmp/.pdf")) <> lit ".pdf").
Proof.
  split; [|split; [reflexivity | vm_compute; discriminate]].
  intros (stem & x & Hn & _ & Hx)%path_suffix_pdf_iff.
  rewrite Hn. unfold ends_with, str_lower. rewrite map_app.
  fold (str_lower x). rewrite Hx, rev_app_distr.
  apply is_prefix_spec. by eexists.
Qed.

Lemma pdf_gate_vs_suffix_witness :
  ends_with (str_lower (path_name (lit "/tmp/a.PDF"))) (lit ".pdf") = true.
Proof. apply (proj1 (pdf_gate_vs_suffix (lit "/tmp/a.PDF"))). reflexivity. Defined.

Lemma read_pdf_keeps_files (pdf_open : str -> outcome (list page)) (p : str) :
  keeps_files (read_pdf pdf_open p).
Proof.
  intros w.
  destruct (read_pdf_cases pdf_open p w)
    as [Hn|[[Hin Hs]|[(e' & Hin & Hs & Ho)|(pages & Hin & Hs & Ho)]]].
  - by rewrite read_pdf_missing.
  - by rewrite read_pdf_bad_suffix.
  - by rewrite (read_pdf_open_fail _ _ e').
  - rewrite (read_pdf_run _ _ pages) by done. cbn zeta. by case_bool_decide.
Qed.

Lemma read_pdf_log_only (pdf_open : str -> outcome (list page)) (p : str) :
  log_only (read_pdf pdf_open p).
Proof.
  intros w.
  destruct (read_pdf_cases pdf_open p w)
    as [Hn|[[Hin Hs]|[(e' & Hin & Hs & Ho)|(pages & Hin & Hs & Ho)]]].
  - rewrite read_pdf_missing by done. by eexists.
  - rewrite read_pdf_bad_suffix by done. by eexists.
  - rewrite (read_pdf_open_fail _ _ e') by done. by eexists.
  - rewrite (read_pdf_run _ _ pages) by done. cbn zeta.
    case_bool_decide; by eexists.
Qed.

Lemma read_pdf_done (pdf_open : str -> outcome (list page)) (p text : str)
    (w : World) :
  snd (read_pdf pdf_open p w) = Done text ->
  exists pages, pdf_open p = Done pages /\ text = flat_map page_out pages.
Proof.
  destruct (read_pdf_cases pdf_open p w)
    as [Hn|[[Hin Hs]|[(e & Hin & Hs & Ho)|(pages & Hin & Hs & Ho)]]].
  - by rewrite read_pdf_missing.
  - by rewrite read_pdf_bad_suffix.
  - by rewrite (read_pdf_open_fail _ _ e).
  - rewrite (read_pdf_run _ _ pages) by done. cbn zeta.
    case_bool_decide; [done|]. simpl. intros [= <-]. by exists pages.
Qed.

Section PipelineLemmas.
Context {A : Type} (add : A -> A -> A) (zero : A).
Variable pdf_open : str -> outcome (list page).
Variable api_key : option str.
Variable openai : str -> outcome (option (list (TransactionRecord A))).

Lemma analyze_with_openai_no_key (text : str) (w : World) :
  match api_key with None => True | Some k => k = [] end ->
  analyze_with_openai api_key openai text w =
  (w, Thrown (AppExn KValueError (lit "OPENAI_API_KEY environment variable is not set"))).
Proof.
  intros Hk. unfold analyze_with_openai.
  destruct api_key as [k|]; [|done]. subst k. reflexivity.
Qed.

Lemma analyze_with_openai_run (text : str) (w : World) (k : str) :
  api_key = Some k -> k <> [] ->
  analyze_with_openai api_key openai text w =
  let w' := {| files := files w; api_calls := api_calls w ++ [text];
               logs := logs w ++ [LogSending] |} in
  match openai text with
  | Done r => (with_logs w' [LogReceived], Done r)
  | Thrown e => (with_logs w' [LogApiError (exc_str e)], Thrown e)
  end.
Proof.
  intros Hk Hne. unfold analyze_with_openai. rewrite Hk.
  rewrite bool_decide_false by done. simpl.
  unfold io_try_except, io_bind, io_log, io_lift. simpl.
  by destruct (openai text).
Qed.

Lemma analyze_with_openai_keeps_files (text : str) :
  keeps_files (analyze_with_openai api_key openai text).
Proof.
  intros w. unfold analyze_with_openai.
  destruct (match api_key with None => true | Some k => bool_decide (k = []) end);
    [done|].
  unfold io_try_except, io_bind, io_log, io_lift. simpl.
  by destruct (openai text).
Qed.

Lemma process_statement_keeps_files (temp_path : str) :
  keeps_files (process_statement add zero pdf_open api_key openai temp_path).
Proof.
  intros w. unfold process_statement, io_bind.
  pose proof (read_pdf_keeps_files pdf_open temp_path w) as H1.
  destruct (read_pdf pdf_open temp_path w) as [w1 [text|e]]; [|done].
  simpl in H1. unfold io_extractor, io_lift.
  destruct (call (extract_purchases text) default_extractor) as [pur|e]; [|done].
  pose proof (analyze_with_openai_keeps_files pur w1) as H2.
  destruct (analyze_with_openai api_key openai pur w1) as [w2 [r|e]];
    simpl in *; [|congruence].
  destruct r; unfold get_transactions, io_ret, io_throw; simpl in *; congruence.
Qed.

(** The endpoint on a [.pdf] file name. *)
Lemma analyze_statement_run (filename temp_path : str) (w : World) :
  ends_with (str_lower filename) (lit ".pdf") = true ->
  analyze_statement add zero pdf_open api_key openai filename temp_path w =
  let w1 := {| files := {[temp_path]} ∪ files w; api_calls := api_calls w;
               logs := logs w |} in
  let '(w2, o) := process_statement add zero pdf_open api_key openai temp_path w1 in
  let w3 := {| files := files w2 ∖ {[temp_path]}; api_calls := api_calls w2;
               logs := logs w2 |} in
  match o with
  | Done r => (w3, Done r)
  | Thrown e => (with_logs w3 [LogProcessingError (exc_str e)],
                 Done (HTTPException 500 (exc_str e)))
  end.
Proof.
  intros Hgate. unfold analyze_statement. rewrite Hgate. simpl.
  unfold io_try_except, io_bind, create_temp, io_try_finally. simpl.
  match goal with
  | |- context [process_statement ?a ?z ?po ?k ?oa ?tp ?w1] =>
      pose proof (process_statement_keeps_files tp w1) as Hk;
      destruct (process_statement a z po k oa tp w1) as [w2 o] eqn:Hp
  end.
  simpl in Hk. unfold unlink. rewrite bool_decide_true by (rewrite Hk; set_solver).
  by destruct o.
Qed.
Lemma analyze_with_openai_api_calls (text : str) (w : World) :
  api_calls (fst (analyze_with_openai api_key openai text w)) = api_calls w \/
  (api_calls (fst (analyze_with_openai api_key openai text w)) = api_calls w ++ [text] /\
   exists k, api_key = Some k /\ k <> []).
Proof.
  assert (Hc : match api_key with None => True | Some k => k = [] end \/
               exists k, api_key = Some k /\ k <> []).
  { destruct api_key as [k|]; [|by left].
    destruct (decide (k = [])); [by left | right; by exists k]. }
  destruct Hc as [Hc|(k & Hk & Hne)].
  - left. by rewrite analyze_with_openai_no_key.
  - right. rewrite (analyze_with_openai_run _ _ k) by done. cbn zeta.
    split; [|by exists k]. by destruct (openai text).
Qed.

Lemma process_statement_read_fail (tp : str) (w w1 : World) (e : app_exn) :
  read_pdf pdf_open tp w = (w1, Thrown e) ->
  process_statement add zero pdf_open api_key openai tp w = (w1, Thrown e).
Proof. intros H. unfold process_statement, io_bind. cbv beta. by rewrite H. Qed.

Lemma process_statement_after_read (tp text : str) (w w1 : World) :
  read_pdf pdf_open tp w = (w1, Done text) ->
  process_statement add zero pdf_open api_key openai tp w =
  match call (extract_purchases text) default_extractor with
  | Err e => (w1, Thrown (of_exn e))
  | Ok pur =>
      match analyze_with_openai api_key openai pur w1 with
      | (w2, Done (Some txs)) =>
          (w2, Done (JSONResponse txs (spend_by_category add zero txs)))
      | (w2, Done None) => (w2, Thrown (AppExn KKeyError (lit "'transactions'")))
      | (w2, Thrown e) => (w2, Thrown e)
      end
  end.
Proof.
  intros H. unfold process_statement, io_bind. cbv beta. rewrite H.
  unfold io_extractor, io_lift. destruct (call _ _) as [pur|e]; [|done].
  by destruct (analyze_with_openai api_key openai pur w1) as [w2 [[txs|]|e]].
Qed.

End PipelineLemmas.

(** The first steps of the endpoint on a [.pdf] upload whose saved copy
    opens into [pages] with a non-blank text. *)
Ltac endpoint_read pages :=
  rewrite analyze_statement_run by done; cbv zeta;
  match goal with
  | |- context [process_statement ?a ?z ?po ?k ?oa ?tp ?w1] =>
      rewrite (process_statement_after_read a z po k oa tp
                 (flat_map page_out pages) w1
                 (with_logs w1 ([LogReading tp] ++ pages_logs 1 pages ++
                                [LogExtracted])));
      [|rewrite (read_pdf_run _ _ pages) by first [set_solver | done]; cbn zeta;
        rewrite bool_decide_false; [done|]; by rewrite str_strip_nil_iff]
  end.

Section EndpointProperties.
Context {A : Type} (add : A -> A -> A) (zero : A).
Variable pdf_open : str -> outcome (list page).
Variable api_key : option str.
Variable openai : str -> outcome (option (list (TransactionRecord A))).



(** ** On a [.pdf] upload whose saved copy reads into a non-blank text,
    from which the default extractor takes [purchases], with the API key
    set and the API answering [{"transactions": txs}]: the endpoint answers
    [JSONResponse] with [txs] and their totals by category, sends the API
    exactly one request, with [purchases] (not the whole text), leaves the
    files as they were, and logs the reading, the extraction, the request
    and the answer. *)
Theorem analyze_statement_success (filename temp_path : str) (w : World)
    (pages : list page) (purchases k : str) (txs : list (TransactionRecord A)) :
  ends_with (str_lower filename) (lit ".pdf") = true ->
  temp_path ∉ files w ->
  str_lower (path_suffix temp_path) = lit ".pdf" ->
  pdf_open temp_path = Done pages ->
  ~ Forall (fun c => py_isspace c = true) (flat_map page_out pages) ->
  call (extract_purchases (flat_map page_out pages)) default_extractor = Ok purchases ->
  api_key = Some k -> k <> [] ->
  openai purchases = Done (Some txs) ->
  let '(w', o) := analyze_statement add zero pdf_open api_key openai
                    filename temp_path w in
  o = Done (JSONResponse txs (spend_by_category add zero txs)) /\
  files w' = files w /\
  api_calls w' = api_calls w ++ [purchases] /\
  logs w' = logs w ++ [LogReading temp_path] ++ pages_logs 1 pages ++
            [LogExtracted; LogSending; LogReceived].
Proof.
  intros Hg Hfresh Hsuf Hopen Hblank Hext Hk Hne Hai.
  rewrite analyze_statement_run by done. cbv zeta.
  match goal with
  | |- context [process_statement _ _ _ _ _ _ ?w1] =>
      rewrite (process_statement_after_read add zero pdf_open api_key openai
                 temp_path (flat_map page_out pages) w1
                 (with_logs w1 ([LogReading temp_path] ++ pages_logs 1 pages ++
                                [LogExtracted])))
  end.
  2:{ rewrite (read_pdf_run _ _ pages) by first [set_solver | done]. cbn zeta.
      rewrite bool_decide_false; [done|]. by rewrite str_strip_nil_iff. }
  rewrite Hext, (analyze_with_openai_run _ _ _ _ k) by done. cbn zeta.
  rewrite Hai. simpl.
  split; [done|]. split; [set_solver|]. split; [done|].
  rewrite <- !(assoc_L (++)). simpl. by rewrite <- !(assoc_L (++)).
Qed.

(** ** When every page of the saved upload is blank, the endpoint raises
    [HTTPException] 500 ["Failed to extract any text from the PDF"] and does
    not call the API. *)
Theorem analyze_statement_blank_pdf (filename temp_path : str) (w : World)
    (pages : list page) :
  ends_with (str_lower filename) (lit ".pdf") = true ->
  str_lower (path_suffix temp_path) = lit ".pdf" ->
  pdf_open temp_path = Done pages ->
  Forall (fun c => py_isspace c = true) (flat_map page_out pages) ->
  let '(w', o) := analyze_statement add zero pdf_open api_key openai
                    filename temp_path w in
  o = Done (HTTPException 500 (lit "Failed to extract any text from the PDF")) /\
  api_calls w' = api_calls w.
Proof.
  intros Hg Hsuf Hopen Hblank.
  rewrite analyze_statement_run by done. cbv zeta.
  match goal with
  | |- context [process_statement ?a ?z ?po ?k ?oa ?tp ?w1] =>
      rewrite (process_statement_read_fail a z po k oa tp w1
                 (with_logs w1 ([LogReading tp] ++ pages_logs 1 pages ++
                   [LogNoText; LogReadError (lit "Failed to extract any text from the PDF")]))
                 (AppExn KValueError (lit "Failed to extract any text from the PDF")))
  end.
  - done.
  - rewrite (read_pdf_run _ _ pages) by first [set_solver | done]. cbn zeta.
    rewrite bool_decide_true; [done|]. by rewrite str_strip_nil_iff.
Qed.

(** ** When the default extractor raises [ValueError(m)] on the text read
    (no start marker, no stop marker or no [PURCHASE]), the endpoint raises
    [HTTPException] 500 with detail [m], logged as ["Error processing PDF: " + m],
    and does not call the API. *)
Theorem analyze_statement_extract_error (filename temp_path : str) (w : World)
    (pages : list page) (m : string) :
  ends_with (str_lower filename) (lit ".pdf") = true ->
  str_lower (path_suffix temp_path) = lit ".pdf" ->
  pdf_open temp_path = Done pages ->
  ~ Forall (fun c => py_isspace c = true) (flat_map page_out pages) ->
  call (extract_purchases (flat_map page_out pages)) default_extractor =
    Err (ValueError m) ->
  let '(w', o) := analyze_statement add zero pdf_open api_key openai
                    filename temp_path w in
  o = Done (HTTPException 500 (lit m)) /\
  api_calls w' = api_calls w /\
  last (logs w') = Some (LogProcessingError (lit m)).
Proof.
  intros Hg Hsuf Hopen Hblank Hext. endpoint_read pages.
  rewrite Hext. simpl. split; [done|]. split; [done|]. apply last_snoc.
Qed.


(** ** When the API call (or the parsing of its answer) raises [e], the
    endpoint raises [HTTPException] 500 with detail [str(e)], after one
    request with the purchases; [str(e)] is logged twice, first by
    [analyze_with_openai], then by the endpoint. *)
Theorem analyze_statement_api_error (filename temp_path : str) (w : World)
    (pages : list page) (purchases k : str) (e : app_exn) :
  ends_with (str_lower filename) (lit ".pdf") = true ->
  str_lower (path_suffix temp_path) = lit ".pdf" ->
  pdf_open temp_path = Done pages ->
  ~ Forall (fun c => py_isspace c = true) (flat_map page_out pages) ->
  call (extract_purchases (flat_map page_out pages)) default_extractor = Ok purchases ->
  api_key = Some k -> k <> [] ->
  openai purchases = Thrown e ->
  let '(w', o) := analyze_statement add zero pdf_open api_key openai
                    filename temp_path w in
  o = Done (HTTPException 500 (exc_str e)) /\
  api_calls w' = api_calls w ++ [purchases] /\
  logs w' = logs w ++ [LogReading temp_path] ++ pages_logs 1 pages ++
            [LogExtracted; LogSending; LogApiError (exc_str e);
             LogProcessingError (exc_str e)].
Proof.
  intros Hg Hsuf Hopen Hblank Hext Hk Hne Hai. endpoint_read pages.
  rewrite Hext, (analyze_with_openai_run _ _ _ _ k) by done. cbn zeta.
  rewrite Hai. simpl.
  split; [done|]. split; [done|].
  rewrite <- !(assoc_L (++)). simpl. by rewrite <- !(assoc_L (++)).
Qed.

(** ** When the API's answer has no ['transactions'] key, the endpoint
    raises [HTTPException] 500 with detail ["'transactions'"], the [str] of
    the [KeyError]. *)
Theorem analyze_statement_no_transactions (filename temp_path : str) (w : World)
    (pages : list page) (purchases k : str) :
  ends_with (str_lower filename) (lit ".pdf") = true ->
  str_lower (path_suffix temp_path) = lit ".pdf" ->
  pdf_open temp_path = Done pages ->
  ~ Forall (fun c => py_isspace c = true) (flat_map page_out pages) ->
  call (extract_purchases (flat_map page_out pages)) default_extractor = Ok purchases ->
  api_key = Some k -> k <> [] ->
  openai purchases = Done None ->
  snd (analyze_statement add zero pdf_open api_key openai filename temp_path w) =
  Done (HTTPException 500 (lit "'transactions'")).
Proof.
  intros Hg Hsuf Hopen Hblank Hext Hk Hne Hai. endpoint_read pages.
  rewrite Hext, (analyze_with_openai_run _ _ _ _ k) by done. cbn zeta.
  by rewrite Hai.
Qed.
(** ** The endpoint sends the API at most one request, and only with the
    purchases the default extractor takes from the uploaded PDF's text,
    and only when the API key is set. *)
Theorem analyze_statement_api_calls (filename temp_path : str) (w : World) :
  let w' := fst (analyze_statement add zero pdf_open api_key openai
                   filename temp_path w) in
  api_calls w' = api_calls w \/
  exists pages purchases k,
    pdf_open temp_path = Done pages /\
    call (extract_purchases (flat_map page_out pages)) default_extractor = Ok purchases /\
    api_key = Some k /\ k <> [] /\
    api_calls w' = api_calls w ++ [purchases].
Proof.
  cbv zeta.
  destruct (ends_with (str_lower filename) (lit ".pdf")) eqn:Hg;
    [|left; unfold analyze_statement; by rewrite Hg].
  rewrite analyze_statement_run by done. cbv zeta.
  match goal with
  | |- context [process_statement ?a ?z ?po ?k ?oa ?tp ?W] =>
      set (w1 := W);
      assert (Hw1 : api_calls w1 = api_calls w) by done;
      clearbody w1;
      destruct (read_pdf po tp w1) as [wr [text|e]] eqn:Hr;
      [rewrite (process_statement_after_read a z po k oa tp text w1 wr Hr)
      |rewrite (process_statement_read_fail a z po k oa tp w1 wr e Hr)]
  end.
  - destruct (read_pdf_log_only pdf_open temp_path w1) as [l Hl].
    rewrite Hr in Hl. simpl in Hl. subst wr.
    destruct (read_pdf_done pdf_open temp_path text w1) as (pages & Hopen & ->);
      [by rewrite Hr|].
    destruct (call _ _) as [pur|x] eqn:Hext; [|left; simpl; done].
    destruct (analyze_with_openai_api_calls api_key openai pur (with_logs w1 l))
      as [Ha|[Ha (k & Hk & Hne)]];
      destruct (analyze_with_openai api_key openai pur (with_logs w1 l))
        as [w2 [[txs|]|e]]; simpl in *;
      first [left; by rewrite Ha, Hw1
            | right; exists pages, pur, k; by rewrite Ha, Hw1].
  - left. destruct (read_pdf_log_only pdf_open temp_path w1) as [l Hl].
    rewrite Hr in Hl. simpl in Hl. subst wr. simpl. done.
Qed.
End EndpointProperties.

Section MainProperties.
Context {A : Type} (add : A -> A -> A) (zero : A).
Variable pdf_open : str -> outcome (list page).
Variable api_key : option str.
Variable openai : str -> outcome (option (list (TransactionRecord A))).

Lemma main_read_fail (prog p : str) (w w1 : World) (e : app_exn) :
  read_pdf pdf_open p w = (w1, Thrown e) ->
  main add zero pdf_open api_key openai [prog; p] w =
  (with_logs w1 [LogFailedToProcess (exc_str e)], Done (SysExit 1 [])).
Proof.
  intros Hr. unfold main. rewrite bool_decide_true by done. cbn [negb]. cbv zeta.
  change (default [] ([prog; p] !! 1)) with p.
  unfold io_bind, io_try_except. cbv beta. rewrite Hr. reflexivity.
Qed.

Lemma main_after_read (prog p text : str) (w w1 : World) :
  read_pdf pdf_open p w = (w1, Done text) ->
  main add zero pdf_open api_key openai [prog; p] w =
  match call (extract_purchases text)
             (init (lit "ACCOUNT ACTIVITY") (lit "Totals Year-to-Date")) with
  | Err x => (with_logs w1 [LogFailedToProcess (exc_str (of_exn x))],
              Done (SysExit 1 []))
  | Ok pur =>
      match analyze_with_openai api_key openai pur w1 with
      | (w2, Done (Some txs)) =>
          (w2, Done (PrintedTotals (spend_by_category add zero txs)))
      | (w2, Done None) => (w2, Thrown (AppExn KKeyError (lit "'transactions'")))
      | (w2, Thrown e) => (w2, Thrown e)
      end
  end.
Proof.
  intros Hr. unfold main. rewrite bool_decide_true by done. cbn [negb]. cbv zeta.
  change (default [] ([prog; p] !! 1)) with p.
  unfold io_bind, io_try_except. cbv beta. rewrite Hr.
  unfold io_extractor, io_lift. destruct (call _ _) as [pur|x]; [|done].
  unfold io_ret.
  by destruct (analyze_with_openai api_key openai pur w1) as [w2 [[txs|]|e]].
Qed.

(** ** When [read_pdf] raises [e] on the given path, [main] logs
    ["Failed to process PDF: " + str(e)] after [read_pdf]'s own log and
    exits with status 1, printing nothing and without calling the API. *)
Theorem main_read_error (prog p : str) (w : World) (e : app_exn) :
  snd (read_pdf pdf_open p w) = Thrown e ->
  main add zero pdf_open api_key openai [prog; p] w =
  (with_logs (fst (read_pdf pdf_open p w)) [LogFailedToProcess (exc_str e)],
   Done (SysExit 1 [])).
Proof.
  intros Hr. apply main_read_fail.
  destruct (read_pdf pdf_open p w) as [w1 o]. simpl in Hr. by subst o.
Qed.

(** ** When the extractor with start marker ["ACCOUNT ACTIVITY"] and stop
    marker ["Totals Year-to-Date"] raises [ValueError(m)] on the text read,
    [main] logs ["Failed to process PDF: " + m] and exits with status 1,
    without calling the API. *)
Theorem main_extract_error (prog p text : str) (w w1 : World) (m : string) :
  read_pdf pdf_open p w = (w1, Done text) ->
  call (extract_purchases text)
       (init (lit "ACCOUNT ACTIVITY") (lit "Totals Year-to-Date")) = Err (ValueError m) ->
  main add zero pdf_open api_key openai [prog; p] w =
  (with_logs w1 [LogFailedToProcess (lit m)], Done (SysExit 1 [])).
Proof.
  intros Hr Hext. rewrite (main_after_read _ _ _ _ _ Hr), Hext. done.
Qed.

(** ** On a path that reads and extracts, with the API key set and the API
    answering [{"transactions": txs}], [main] sends [purchases] to the API
    once and ends by printing the totals of [txs] by category. *)
Theorem main_success (prog p text purchases k : str) (w w1 : World)
    (txs : list (TransactionRecord A)) :
  read_pdf pdf_open p w = (w1, Done text) ->
  call (extract_purchases text)
       (init (lit "ACCOUNT ACTIVITY") (lit "Totals Year-to-Date")) = Ok purchases ->
  api_key = Some k -> k <> [] ->
  openai purchases = Done (Some txs) ->
  let '(w', o) := main add zero pdf_open api_key openai [prog; p] w in
  o = Done (PrintedTotals (spend_by_category add zero txs)) /\
  api_calls w' = api_calls w ++ [purchases].
Proof.
  intros Hr Hext Hk Hne Hai.
  destruct (read_pdf_log_only pdf_open p w) as [l Hl].
  rewrite Hr in Hl. simpl in Hl. subst w1.
  rewrite (main_after_read _ _ _ _ _ Hr), Hext.
  rewrite (analyze_with_openai_run _ _ _ _ k) by done. cbn zeta.
  by rewrite Hai.
Qed.

(** ** Unlike the endpoint, [main] does not catch what goes wrong after the
    extraction: an exception [e] of the API call propagates out of [main]
    unchanged, after the request with [purchases] was sent. *)
Theorem main_api_error_uncaught (prog p text purchases k : str) (w w1 : World)
    (e : app_exn) :
  read_pdf pdf_open p w = (w1, Done text) ->
  call (extract_purchases text)
       (init (lit "ACCOUNT ACTIVITY") (lit "Totals Year-to-Date")) = Ok purchases ->
  api_key = Some k -> k <> [] ->
  openai purchases = Thrown e ->
  let '(w', o) := main add zero pdf_open api_key openai [prog; p] w in
  o = Thrown e /\ api_calls w' = api_calls w ++ [purchases] /\
  last (logs w') = Some (LogApiError (exc_str e)).
Proof.
  intros Hr Hext Hk Hne Hai.
  destruct (read_pdf_log_only pdf_open p w) as [l Hl].
  rewrite Hr in Hl. simpl in Hl. subst w1.
  rewrite (main_after_read _ _ _ _ _ Hr), Hext.
  rewrite (analyze_with_openai_run _ _ _ _ k) by done. cbn zeta.
  rewrite Hai. simpl. split; [done|]. split; [done|]. apply last_snoc.
Qed.

(** ** [main] with the API key unset or empty raises
    [ValueError("OPENAI_API_KEY environment variable is not set")] once the
    text is extracted; nothing is sent to the API. *)
Theorem main_no_key (prog p text purchases : str) (w w1 : World) :
  read_pdf pdf_open p w = (w1, Done text) ->
  call (extract_purchases text)
       (init (lit "ACCOUNT ACTIVITY") (lit "Totals Year-to-Date")) = Ok purchases ->
  match api_key with None => True | Some k => k = [] end ->
  let '(w', o) := main add zero pdf_open api_key openai [prog; p] w in
  o = Thrown (AppExn KValueError (lit "OPENAI_API_KEY environment variable is not set")) /\
  api_calls w' = api_calls w.
Proof.
  intros Hr Hext Hk.
  destruct (read_pdf_log_only pdf_open p w) as [l Hl].
  rewrite Hr in Hl. simpl in Hl. subst w1.
  rewrite (main_after_read _ _ _ _ _ Hr), Hext.
  rewrite analyze_with_openai_no_key by done. done.
Qed.
End MainProperties.

(** * Sample runs of the endpoint and of [main] *)

(** A precondition of a sample run, checked by evaluation. *)
Ltac sample_hyp :=
  first [ reflexivity | set_solver | discriminate | exact I
        | vm_compute; intros H; inversion H; discriminate
        | vm_compute; repeat constructor ].



Lemma analyze_statement_success_witness :
  let '(w', o) := analyze_statement Z.add 0%Z sample_pdf_open (Some (lit "sk"))
                    sample_openai (lit "statement.PDF") (lit "/tmp/tmpab12.pdf")
                    sample_world in
  o = Done (JSONResponse [food1; shop1] (spend_by_category Z.add 0%Z [food1; shop1])) /\
  files w' = files sample_world /\
  api_calls w' = api_calls sample_world ++ [lit "PURCHASE Coffee 5.00"] /\
  logs w' = logs sample_world ++ [LogReading (lit "/tmp/tmpab12.pdf")] ++
            pages_logs 1 [PageText sample_text] ++
            [LogExtracted; LogSending; LogReceived].
Proof.
  apply (analyze_statement_success Z.add 0%Z sample_pdf_open (Some (lit "sk"))
           sample_openai (lit "statement.PDF") (lit "/tmp/tmpab12.pdf") sample_world
           [PageText sample_text] (lit "PURCHASE Coffee 5.00") (lit "sk")
           [food1; shop1]); sample_hyp.
Defined.

Lemma analyze_statement_blank_pdf_witness :
  let '(w', o) := analyze_statement Z.add 0%Z (fun _ => Done [PageText (lit " "); PageNone])
                    (Some (lit "sk")) sample_openai (lit "statement.pdf")
                    (lit "/tmp/tmpab12.pdf") sample_world in
  o = Done (HTTPException 500 (lit "Failed to extract any text from the PDF")) /\
  api_calls w' = api_calls sample_world.
Proof.
  apply (analyze_statement_blank_pdf Z.add 0%Z
           (fun _ => Done [PageText (lit " "); PageNone]) (Some (lit "sk"))
           sample_openai (lit "statement.pdf") (lit "/tmp/tmpab12.pdf") sample_world
           [PageText (lit " "); PageNone]); sample_hyp.
Defined.

Lemma analyze_statement_extract_error_witness :
  let '(w', o) := analyze_statement Z.add 0%Z (fun _ => Done [PageText (lit "hello")])
                    (Some (lit "sk")) sample_openai (lit "statement.pdf")
                    (lit "/tmp/tmpab12.pdf") sample_world in
  o = Done (HTTPException 500 (lit "Could not find start marker in text")) /\
  api_calls w' = api_calls sample_world /\
  last (logs w') = Some (LogProcessingError (lit "Could not find start marker in text")).
Proof.
  apply (analyze_statement_extract_error Z.add 0%Z
           (fun _ => Done [PageText (lit "hello")]) (Some (lit "sk"))
           sample_openai (lit "statement.pdf") (lit "/tmp/tmpab12.pdf") sample_world
           [PageText (lit "hello")] "Could not find start marker in text"); sample_hyp.
Defined.


Lemma analyze_statement_api_error_witness :
  let '(w', o) := analyze_statement Z.add 0%Z sample_pdf_open (Some (lit "sk"))
                    (fun _ => Thrown (AppExn KExternal (lit "Request timed out.")))
                    (lit "statement.pdf") (lit "/tmp/tmpab12.pdf") sample_world in
  o = Done (HTTPException 500 (lit "Request timed out.")) /\
  api_calls w' = api_calls sample_world ++ [lit "PURCHASE Coffee 5.00"] /\
  logs w' = logs sample_world ++ [LogReading (lit "/tmp/tmpab12.pdf")] ++
            pages_logs 1 [PageText sample_text] ++
            [LogExtracted; LogSending; LogApiError (lit "Request timed out.");
             LogProcessingError (lit "Request timed out.")].
Proof.
  apply (analyze_statement_api_error Z.add 0%Z sample_pdf_open (Some (lit "sk"))
           (fun _ => Thrown (AppExn KExternal (lit "Request timed out.")))
           (lit "statement.pdf") (lit "/tmp/tmpab12.pdf") sample_world
           [PageText sample_text] (lit "PURCHASE Coffee 5.00") (lit "sk")
           (AppExn KExternal (lit "Request timed out."))); sample_hyp.
Defined.

Lemma analyze_statement_no_transactions_witness :
  snd (analyze_statement Z.add 0%Z sample_pdf_open (Some (lit "sk"))
         (fun _ => Done None) (lit "statement.pdf") (lit "/tmp/tmpab12.pdf")
         sample_world) =
  Done (HTTPException 500 (lit "'transactions'")).
Proof.
  apply (analyze_statement_no_transactions Z.add 0%Z sample_pdf_open (Some (lit "sk"))
           (fun _ => Done None) (lit "statement.pdf") (lit "/tmp/tmpab12.pdf")
           sample_world [PageText sample_text] (lit "PURCHASE Coffee 5.00")
           (lit "sk")); sample_hyp.
Defined.


Lemma main_read_error_witness :
  main Z.add 0%Z sample_pdf_open (Some (lit "sk")) sample_openai
    [lit "main.py"; lit "/home/u/missing.pdf"] sample_home =
  (with_logs (fst (read_pdf sample_pdf_open (lit "/home/u/missing.pdf") sample_home))
     [LogFailedToProcess (lit "PDF file not found at: " ++ lit "/home/u/missing.pdf")],
   Done (SysExit 1 [])).
Proof.
  apply (main_read_error Z.add 0%Z sample_pdf_open (Some (lit "sk")) sample_openai
           (lit "main.py") (lit "/home/u/missing.pdf") sample_home
           (AppExn KFileNotFoundError
              (lit "PDF file not found at: " ++ lit "/home/u/missing.pdf"))).
  sample_hyp.
Defined.

Lemma main_extract_error_witness :
  main Z.add 0%Z (fun _ => Done [PageText (lit "hello")]) (Some (lit "sk"))
    sample_openai [lit "main.py"; sample_pdf_path] sample_home =
  (with_logs (with_logs sample_home [LogReading sample_pdf_path; LogExtracted])
     [LogFailedToProcess (lit "Could not find start marker in text")],
   Done (SysExit 1 [])).
Proof.
  apply (main_extract_error Z.add 0%Z (fun _ => Done [PageText (lit "hello")])
           (Some (lit "sk")) sample_openai (lit "main.py") sample_pdf_path
           (lit "hello" ++ ["010"%char]) sample_home
           (with_logs sample_home [LogReading sample_pdf_path; LogExtracted])
           "Could not find start marker in text"); sample_hyp.
Defined.

Lemma main_success_witness :
  let '(w', o) := main Z.add 0%Z sample_pdf_open (Some (lit "sk")) sample_openai
                    [lit "main.py"; sample_pdf_path] sample_home in
  o = Done (PrintedTotals (spend_by_category Z.add 0%Z [food1; shop1])) /\
  api_calls w' = api_calls sample_home ++ [lit "PURCHASE Coffee 5.00"].
Proof.
  apply (main_success Z.add 0%Z sample_pdf_open (Some (lit "sk")) sample_openai
           (lit "main.py") sample_pdf_path (sample_text ++ ["010"%char])
           (lit "PURCHASE Coffee 5.00") (lit "sk") sample_home
           (with_logs sample_home [LogReading sample_pdf_path; LogExtracted])
           [food1; shop1]); sample_hyp.
Defined.

Lemma main_api_error_uncaught_witness :
  let '(w', o) := main Z.add 0%Z sample_pdf_open (Some (lit "sk"))
                    (fun _ => Thrown (AppExn KExternal (lit "Request timed out.")))
                    [lit "main.py"; sample_pdf_path] sample_home in
  o = Thrown (AppExn KExternal (lit "Request timed out.")) /\
  api_calls w' = api_calls sample_home ++ [lit "PURCHASE Coffee 5.00"] /\
  last (logs w') = Some (LogApiError (lit "Request timed out.")).
Proof.
  apply (main_api_error_uncaught Z.add 0%Z sample_pdf_open (Some (lit "sk"))
           (fun _ => Thrown (AppExn KExternal (lit "Request timed out.")))
           (lit "main.py") sample_pdf_path (sample_text ++ ["010"%char])
           (lit "PURCHASE Coffee 5.00") (lit "sk") sample_home
           (with_logs sample_home [LogReading sample_pdf_path; LogExtracted])
           (AppExn KExternal (lit "Request timed out."))); sample_hyp.
Defined.

Lemma main_no_key_witness :
  let '(w', o) := main Z.add 0%Z sample_pdf_open (Some []) sample_openai
                    [lit "main.py"; sample_pdf_path] sample_home in
  o = Thrown (AppExn KValueError (lit "OPENAI_API_KEY environment variable is not set")) /\
  api_calls w' = api_calls sample_home.
Proof.
  apply (main_no_key Z.add 0%Z sample_pdf_open (Some []) sample_openai
           (lit "main.py") sample_pdf_path (sample_text ++ ["010"%char])
           (lit "PURCHASE Coffee 5.00") sample_home
           (with_logs sample_home [LogReading sample_pdf_path; LogExtracted]));
    sample_hyp.
Defined.
